(** * Catalog data-access engine of sconosciute/460p2: a shallow embedding

    The rating update pipeline ([PUT /books/update], src/src/routes/closed/books.ts),
    the migration driver (src/unnamed/part_009), the pagination and rating-range
    middleware (src/src/core/middleware), and the search routes of the book
    router revisions (src/unnamed/part_004, src/unnamed/part_006). *)

From Stdlib Require Import ZArith QArith Qround Qabs String Ascii List Bool Lia Lqa.
Import ListNotations.

Open Scope Z_scope.

(** ** JavaScript values used by the request handlers *)
Module Js.

Open Scope char_scope.

(** ASCII characters of [\s] (and of [String.prototype.trim]). *)
Definition is_space (c : ascii) : bool :=
  let n := nat_of_ascii c in
  (Nat.eqb n 32 || ((9 <=? n) && (n <=? 13))%nat)%bool.

(** Line terminators, where [^] and [$] match under the [m] flag. *)
Definition is_line_terminator (c : ascii) : bool :=
  let n := nat_of_ascii c in (Nat.eqb n 10 || Nat.eqb n 13)%bool.

Definition is_digit (c : ascii) : bool :=
  let n := nat_of_ascii c in ((48 <=? n) && (n <=? 57))%nat.

Definition is_alpha (c : ascii) : bool :=
  let n := nat_of_ascii c in
  (((65 <=? n) && (n <=? 90)) || ((97 <=? n) && (n <=? 122)))%nat.

Fixpoint drop_spaces (l : list ascii) : list ascii :=
  match l with
  | c :: r => if is_space c then drop_spaces r else l
  | [] => []
  end.

(** [String.prototype.trim] on ASCII text. *)
Definition trim (l : list ascii) : list ascii := rev (drop_spaces (rev (drop_spaces l))).

(** [String(x).trim().length == 0] *)
Definition blank (s : string) : bool := forallb is_space (list_ascii_of_string s).

(** JavaScript truthiness of an optional query string: defined and non-empty. *)
Definition truthy (o : option string) : bool :=
  match o with Some s => negb (String.eqb s "") | None => false end.

Fixpoint digits (l : list ascii) (acc : Z) (k : nat) : Z * nat * list ascii :=
  match l with
  | c :: r =>
      if is_digit c then digits r (10 * acc + Z.of_nat (nat_of_ascii c - 48)) (S k)
      else (acc, k, l)
  | [] => (acc, k, [])
  end.

(** [x < y] on finite numbers. *)
Definition qlt (x y : Q) : bool := negb (Qle_bool y x).

(** A JavaScript number: a finite value, one of the two infinities
    ([jinf true] is [-Infinity]) or [NaN].  A finite value is kept exact:
    the rounding of a value to the nearest double, and the sign of a zero,
    are not modelled; a magnitude that rounds past the largest double is an
    infinity. *)
Inductive jsnum := jfin (q : Q) | jinf (neg : bool) | jnan.

(** The magnitude from which a value rounds to an infinity:
    [2^1024 - 2^970], half an ulp above [Number.MAX_VALUE]. *)
Definition overflow_bound : Z := 2 ^ 1024 - 2 ^ 970.

(** A computed value as a double: an infinity when it overflows. *)
Definition js_round (q : Q) : jsnum :=
  if Qle_bool (inject_Z overflow_bound) (Qabs q) then jinf (qlt q 0) else jfin q.

(** Unary minus. *)
Definition js_neg (x : jsnum) : jsnum :=
  match x with jfin q => jfin (- q) | jinf n => jinf (negb n) | jnan => jnan end.

(** The value of a digit character in bases up to 36 (36 for a non-digit). *)
Definition digit_value (c : ascii) : Z :=
  let n := Z.of_nat (nat_of_ascii c) in
  if Z.leb 48 n && Z.leb n 57 then n - 48
  else if Z.leb 97 n && Z.leb n 122 then n - 87
  else if Z.leb 65 n && Z.leb n 90 then n - 55
  else 36.

(** The longest run of digits of base [base]: its value, its length, and the rest. *)
Fixpoint radix_digits (base : Z) (l : list ascii) (acc : Z) (k : nat) : Z * nat * list ascii :=
  match l with
  | c :: r =>
      if Z.ltb (digit_value c) base then radix_digits base r (base * acc + digit_value c) (S k)
      else (acc, k, l)
  | [] => (acc, k, [])
  end.

(** The decimal digits of [m > 0] (at most [log2 m + 1] of them). *)
Fixpoint dec_len_aux (fuel : nat) (m : Z) : Z :=
  match fuel with
  | O => 1
  | S f => if Z.ltb m 10 then 1 else 1 + dec_len_aux f (m / 10)
  end.

Definition dec_len (m : Z) : Z := dec_len_aux (Z.to_nat (Z.log2 m)) m.

(** The value [m * 10^e] of a decimal literal ([m >= 0]).  A value of
    [d = dec_len m + e] decimal digits lies in [[10^(d-1), 10^d)]: from
    [d >= 310] it is above [overflow_bound], and from [d <= -330] it is below
    half the least double, [2^-1075], and rounds to 0; the two tests avoid
    computing [10^e] for a long exponent. *)
Definition scaled (m e : Z) : jsnum :=
  if Z.eqb m 0 then jfin 0 else
  let d := dec_len m + e in
  if Z.leb 310 d then jinf false
  else if Z.leb d (-330) then jfin 0
  else
    let x := if Z.leb 0 e then inject_Z (m * 10 ^ e) else Qmake m (Z.to_pos (10 ^ (- e))) in
    if Qle_bool x (Qmake 1 (Z.to_pos (2 ^ 1075))) then jfin 0 else js_round x.

(** [ExponentPart] after its [e] or [E]: an optional sign and digits, up to the end. *)
Definition exponent_part (l : list ascii) : option Z :=
  let '(sgn, r) := match l with
                   | c :: r => if Ascii.eqb c "+" then (1, r)
                               else if Ascii.eqb c "-" then (-1, r) else (1, l)
                   | [] => (1, l)
                   end in
  let '(n, k, rest) := digits r 0 0 in
  match rest with
  | [] => if Nat.eqb k 0 then None else Some (sgn * n)
  | _ => None
  end.

(** [StrUnsignedDecimalLiteral] without [Infinity]: digits, an optional
    fraction, at least one digit in all, an optional exponent. *)
Definition unsigned_decimal (l : list ascii) : option jsnum :=
  let '(ip, ki, r) := digits l 0 0 in
  let '(fp, kf, r2) := match r with
                       | c :: r' => if Ascii.eqb c "." then digits r' 0 0 else (0, O, r)
                       | [] => (0, O, r)
                       end in
  if Nat.eqb (ki + kf) 0 then None
  else
    let m := ip * 10 ^ Z.of_nat kf + fp in
    match r2 with
    | [] => Some (scaled m (- Z.of_nat kf))
    | c :: r3 =>
        if Ascii.eqb c "e" || Ascii.eqb c "E" then
          match exponent_part r3 with
          | Some e => Some (scaled m (e - Z.of_nat kf))
          | None => None
          end
        else None
    end.

(** [StrUnsignedDecimalLiteral], [NaN] when the text is not one. *)
Definition unsigned_number (l : list ascii) : jsnum :=
  if String.eqb (string_of_list_ascii l) "Infinity"%string then jinf false
  else match unsigned_decimal l with Some x => x | None => jnan end.

(** [NonDecimalIntegerLiteral] after its prefix [0x], [0o] or [0b]. *)
Definition radix_integer (base : Z) (l : list ascii) : jsnum :=
  let '(n, k, r) := radix_digits base l 0 0 in
  match r with
  | [] => if Nat.eqb k 0 then jnan else js_round (inject_Z n)
  | _ => jnan
  end.

(** [Number(s)] for a string ([StringToNumber]): surrounding white space
    ignored, the empty string is 0, otherwise a signed decimal literal
    (with fraction and exponent), a signed [Infinity], or an unsigned
    hexadecimal, octal or binary integer; anything else is [NaN]. *)
Definition js_number (s : string) : jsnum :=
  match trim (list_ascii_of_string s) with
  | [] => jfin 0
  | c :: r =>
      if Ascii.eqb c "-" then js_neg (unsigned_number r)
      else if Ascii.eqb c "+" then unsigned_number r
      else if Ascii.eqb c "0" then
        match r with
        | d :: r' =>
            if Ascii.eqb d "x" || Ascii.eqb d "X" then radix_integer 16 r'
            else if Ascii.eqb d "o" || Ascii.eqb d "O" then radix_integer 8 r'
            else if Ascii.eqb d "b" || Ascii.eqb d "B" then radix_integer 2 r'
            else unsigned_number (c :: r)
        | [] => unsigned_number (c :: r)
        end
      else unsigned_number (c :: r)
  end.

(** [Number(req.query.x)]: [Number(undefined)] is [NaN]. *)
Definition number (o : option string) : jsnum :=
  match o with Some s => js_number s | None => jnan end.

Definition is_nan (x : jsnum) : bool := match x with jnan => true | _ => false end.

(** [x < y]: any comparison with [NaN] is false. *)
Definition js_lt (x y : jsnum) : bool :=
  match x, y with
  | jnan, _ => false
  | _, jnan => false
  | jfin a, jfin b => qlt a b
  | jinf true, jinf true => false
  | jinf true, _ => true
  | jinf false, _ => false
  | jfin _, jinf n => negb n
  end.

(** [x <= y] *)
Definition js_le (x y : jsnum) : bool := negb (is_nan x) && negb (is_nan y) && negb (js_lt y x).

(** [x == 0] *)
Definition js_eq0 (x : jsnum) : bool := match x with jfin q => Qeq_bool q 0 | _ => false end.

(** [Math.abs(x)] *)
Definition js_abs (x : jsnum) : jsnum :=
  match x with jfin q => jfin (Qabs q) | jinf _ => jinf false | jnan => jnan end.

(** [Math.ceil(x)] *)
Definition js_ceil (x : jsnum) : jsnum :=
  match x with jfin q => jfin (inject_Z (Qceiling q)) | _ => x end.

(** [x + y] *)
Definition js_add (x y : jsnum) : jsnum :=
  match x, y with
  | jnan, _ => jnan
  | _, jnan => jnan
  | jfin a, jfin b => js_round (a + b)
  | jinf n, jfin _ => jinf n
  | jfin _, jinf n => jinf n
  | jinf n, jinf m => if Bool.eqb n m then jinf n else jnan
  end.

(** [x - y] *)
Definition js_sub (x y : jsnum) : jsnum := js_add x (js_neg y).

(** [x * y] *)
Definition js_mul (x y : jsnum) : jsnum :=
  match x, y with
  | jnan, _ => jnan
  | _, jnan => jnan
  | jfin a, jfin b => js_round (a * b)
  | jfin a, jinf n => if Qeq_bool a 0 then jnan else jinf (xorb n (qlt a 0))
  | jinf n, jfin a => if Qeq_bool a 0 then jnan else jinf (xorb n (qlt a 0))
  | jinf n, jinf m => jinf (xorb n m)
  end.

(** [x / y]; a zero divisor is taken as [+0]. *)
Definition js_div (x y : jsnum) : jsnum :=
  match x, y with
  | jnan, _ => jnan
  | _, jnan => jnan
  | jfin a, jfin b =>
      if Qeq_bool b 0 then (if Qeq_bool a 0 then jnan else jinf (qlt a 0))
      else js_round (a / b)
  | jfin _, jinf _ => jfin 0
  | jinf n, jfin b => jinf (xorb n (qlt b 0))
  | jinf _, jinf _ => jnan
  end.

(** Modelled from the spec: [validationFunctions.isNumberProvided] (the
    utilities module is not in the sources) accepts a provided value that is
    numeric, the spec's "non-numeric identifier/offset/page -> rejected". *)
Definition isNumberProvided (s : string) : bool :=
  negb (String.eqb s "") && negb (is_nan (js_number s)).

(** Modelled from the spec: [validationFunctions.isStringProvided] accepts a
    provided, non-empty string. *)
Definition isStringProvided (o : option string) : bool := truthy o.

(** [s.charAt(0).toUpperCase() + s.slice(1)] on ASCII text. *)
Definition capitalize (s : string) : string :=
  match s with
  | String c r =>
      let n := nat_of_ascii c in
      if ((97 <=? n) && (n <=? 122))%nat then String (ascii_of_nat (n - 32)) r else s
  | EmptyString => EmptyString
  end.

(** Decimal rendering of a placeholder number [$n]. *)
Fixpoint digits_rev (fuel n : nat) : list ascii :=
  match fuel with
  | O => []
  | S f => ascii_of_nat (48 + n mod 10) :: (if Nat.ltb n 10 then [] else digits_rev f (n / 10))
  end.

Definition nat_to_string (n : nat) : string := string_of_list_ascii (rev (digits_rev (S n) n)).

Fixpoint is_prefix (p l : list ascii) : bool :=
  match p, l with
  | [], _ => true
  | c :: p', d :: l' => Ascii.eqb c d && is_prefix p' l'
  | _, [] => false
  end.

(** [t] occurs in [s] *)
Fixpoint occurs_in (t : list ascii) (s : list ascii) : bool :=
  is_prefix t s || match s with [] => false | _ :: s' => occurs_in t s' end.

Definition contains (s t : string) : bool :=
  occurs_in (list_ascii_of_string t) (list_ascii_of_string s).

(** [s.endsWith(t)] *)
Definition ends_with (s t : string) : bool :=
  is_prefix (rev (list_ascii_of_string t)) (rev (list_ascii_of_string s)).

Definition nl : string := String (ascii_of_nat 10) EmptyString.

End Js.

(** ** The rating update pipeline *)
Module RatingUpdate.

(** The five accepted values of [req.query.ratingtype], i.e. the columns
    ['rating_1_star'] ... ['rating_5_star'] (checked by [validRatingType]). *)
Inductive ratingtype := R1 | R2 | R3 | R4 | R5.

(** The accepted values of [req.query.changetype] ([validRatingChangeType]). *)
Inductive changetype := increaseby | decreaseby | setto.

(** The columns of the [books] table the pipeline reads or writes. *)
Record book := mkBook {
  isbn13 : string;
  rating_1_star : Z;
  rating_2_star : Z;
  rating_3_star : Z;
  rating_4_star : Z;
  rating_5_star : Z;
  rating_count : Z;
  rating_avg : Q
}.

Definition store := list book.

Definition get_col (rt : ratingtype) (b : book) : Z :=
  match rt with
  | R1 => rating_1_star b
  | R2 => rating_2_star b
  | R3 => rating_3_star b
  | R4 => rating_4_star b
  | R5 => rating_5_star b
  end.

Definition set_col (rt : ratingtype) (b : book) (x : Z) : book :=
  let '(mkBook i r1 r2 r3 r4 r5 c a) := b in
  match rt with
  | R1 => mkBook i x r2 r3 r4 r5 c a
  | R2 => mkBook i r1 x r3 r4 r5 c a
  | R3 => mkBook i r1 r2 x r4 r5 c a
  | R4 => mkBook i r1 r2 r3 x r5 c a
  | R5 => mkBook i r1 r2 r3 r4 x c a
  end.

Definition set_count (b : book) (c : Z) : book :=
  let '(mkBook i r1 r2 r3 r4 r5 _ a) := b in mkBook i r1 r2 r3 r4 r5 c a.

Definition set_avg (b : book) (a : Q) : book :=
  let '(mkBook i r1 r2 r3 r4 r5 c _) := b in mkBook i r1 r2 r3 r4 r5 c a.

(** The right-hand side of [SET ${ratingtype} = ...]:
    [${ratingtype} + $1], [${ratingtype} - $1] or [$1]. *)
Definition apply_change (ct : changetype) (old v : Z) : Z :=
  match ct with
  | increaseby => old + v
  | decreaseby => old - v
  | setto => v
  end.

(** [rating_1_star + rating_2_star + rating_3_star + rating_4_star + rating_5_star] *)
Definition bucket_sum (b : book) : Z :=
  rating_1_star b + rating_2_star b + rating_3_star b + rating_4_star b + rating_5_star b.

(** [rating_1_star + 2*rating_2_star + 3*rating_3_star + 4*rating_4_star + 5*rating_5_star] *)
Definition weighted_sum (b : book) : Z :=
  rating_1_star b + 2 * rating_2_star b + 3 * rating_3_star b
  + 4 * rating_4_star b + 5 * rating_5_star b.

(** PostgreSQL [ROUND(x, 2)] on numeric: to two decimals, halves away from zero.
    The quotient is taken exactly (numeric division keeps at least 16
    significant digits, far more than the two kept here). *)
Definition pg_round2 (x : Q) : Q :=
  if Qle_bool 0 x then Qmake (Qfloor (x * 100 + (1 # 2))) 100
  else Qmake (- Qfloor (- x * 100 + (1 # 2))) 100.

(** Failures of the promise chain: the two [Error]s it throws and any
    rejection of [pool.query] (an SQL error). *)
Inductive failure := no_books | negative_number | sql_error.

(** A state and error monad over the [books] table: one [pool.query] step. *)
Definition M (A : Type) := store -> failure + (A * store).

Definition ret {A} (x : A) : M A := fun s => inr (x, s).
Definition throw {A} (e : failure) : M A := fun _ => inl e.
Definition bind {A B} (m : M A) (k : A -> M B) : M B :=
  fun s => match m s with inl e => inl e | inr (x, s') => k x s' end.

Notation "x <- m ;; k" := (bind m (fun x => k)) (at level 61, m at next level, right associativity).
Notation "m ;;; k" := (bind m (fun _ => k)) (at level 61, right associativity).

(** [UPDATE books SET ... WHERE isbn13 = $n]: [f] computes the new row, or
    [None] when PostgreSQL raises an error on that row, which aborts the
    whole statement.  The result is [result.rowCount]. *)
Fixpoint update_rows (isbn : string) (f : book -> option book) (s : store)
  : option (nat * store) :=
  match s with
  | [] => Some (0%nat, [])
  | b :: s' =>
      match update_rows isbn f s' with
      | None => None
      | Some (n, s'') =>
          if String.eqb (isbn13 b) isbn then
            match f b with
            | Some b' => Some (S n, b' :: s'')
            | None => None
            end
          else Some (n, b :: s'')
      end
  end.

Definition sql_update (isbn : string) (f : book -> option book) : M nat :=
  fun s => match update_rows isbn f s with
           | Some (n, s') => inr (n, s')
           | None => inl sql_error
           end.

(** [SELECT ${ratingtype} FROM books WHERE isbn13 = $1] *)
Definition sql_select_col (isbn : string) (rt : ratingtype) : M (list Z) :=
  fun s => inr (map (get_col rt) (filter (fun b => String.eqb (isbn13 b) isbn) s), s).

(** Modelled from the spec: the [books] table is not created in the
    sources; its five bucket columns and [rating_count] are taken as
    [INTEGER], the spec's integer bucket counters.  Every expression over
    them is then evaluated in 32-bit integers, and an [integer out of range]
    error aborts the statement. *)
Definition int4_min : Z := -2147483648.
Definition int4_max : Z := 2147483647.

Definition in_int4 (z : Z) : bool := (int4_min <=? z) && (z <=? int4_max).

(** [int4pl] and [int4mul]; [None] is the overflow error. *)
Definition add4 (a b : option Z) : option Z :=
  match a, b with
  | Some x, Some y => if in_int4 (x + y) then Some (x + y) else None
  | _, _ => None
  end.

Definition mul4 (k : Z) (a : option Z) : option Z :=
  match a with
  | Some x => if in_int4 (k * x) then Some (k * x) else None
  | None => None
  end.

(** Statement 1: [UPDATE books SET ${ratingtype} = <change> WHERE isbn13 = $2]. *)
Definition change_row (rt : ratingtype) (ct : changetype) (v : Z) (b : book) : book :=
  set_col rt b (apply_change ct (get_col rt b) v).

(** Statement 1 on one row, failing when the new value leaves the range. *)
Definition change_row4 (rt : ratingtype) (ct : changetype) (v : Z) (b : book) : option book :=
  if in_int4 (apply_change ct (get_col rt b) v) then Some (change_row rt ct v b) else None.

(** [rating_1_star + rating_2_star + rating_3_star + rating_4_star + rating_5_star]
    evaluated in [integer], from the left. *)
Definition count_expr (b : book) : option Z :=
  add4 (add4 (add4 (add4 (Some (rating_1_star b)) (Some (rating_2_star b)))
                   (Some (rating_3_star b))) (Some (rating_4_star b))) (Some (rating_5_star b)).

(** [rating_1_star + 2*rating_2_star + 3*rating_3_star + 4*rating_4_star + 5*rating_5_star]
    evaluated in [integer]. *)
Definition avg_expr (b : book) : option Z :=
  add4 (add4 (add4 (add4 (Some (rating_1_star b)) (mul4 2 (Some (rating_2_star b))))
                   (mul4 3 (Some (rating_3_star b)))) (mul4 4 (Some (rating_4_star b))))
       (mul4 5 (Some (rating_5_star b))).

(** [calcCount]: [UPDATE books SET rating_count = <sum of buckets> WHERE isbn13 = $1]. *)
Definition calc_count_row (b : book) : book := set_count b (bucket_sum b).

(** [calcCount] on one row, with the overflow of the sum. *)
Definition calc_count_row4 (b : book) : option book :=
  match count_expr b with Some c => Some (set_count b c) | None => None end.

(** [calcAvg]: [UPDATE books SET rating_avg = ROUND(<weighted sum> /
    CAST(rating_count AS DECIMAL(30,1)), 2) WHERE isbn13 = $1]; the weighted
    sum can overflow, and a zero [rating_count] is a numeric division by
    zero: both are SQL errors. *)
Definition calc_avg_row (b : book) : option book :=
  match avg_expr b with
  | None => None
  | Some w =>
      if rating_count b =? 0 then None
      else Some (set_avg b (pg_round2 (inject_Z w / inject_Z (rating_count b))))
  end.

(** The [WHERE isbn13 = $n] test of every statement. *)
Definition matches (isbn : string) (b : book) : bool := String.eqb (isbn13 b) isbn.

(** The body of the transaction, between [BEGIN] and [COMMIT], once [$1] is
    bound to the integer [v]. *)
Definition pipeline (isbn : string) (rt : ratingtype) (ct : changetype) (v : Z) : M unit :=
  n <- sql_update isbn (change_row4 rt ct v) ;;
  (if Nat.eqb n 0 then throw no_books else ret tt) ;;;
  vals <- sql_select_col isbn rt ;;
  (if existsb (fun x => x <? 0) vals then throw negative_number else ret tt) ;;;
  sql_update isbn calc_count_row4 ;;;
  sql_update isbn calc_avg_row ;;;
  ret tt.

Inductive response := status200 (message : string) | status400 (message : string).

Definition msg_ok := "Book ratings updated successfully."%string.
Definition msg_no_book := "Update incomplete: No book with this ISBN."%string.
Definition msg_negative := "Update incomplete: Rating amount cannot be a negative number."%string.
Definition msg_server := "Server or database error occurred."%string.

(** The handler: [BEGIN], the pipeline, the 200 reply and [COMMIT]; on any
    rejection [ROLLBACK] restores the table as it was at [BEGIN] and the
    [catch] maps the error message to the reply. *)
Definition update_rating (s : store) (isbn : string) (rt : ratingtype) (ct : changetype) (v : Z)
  : store * response :=
  match pipeline isbn rt ct v s with
  | inr (_, s') => (s', status200 msg_ok)
  | inl no_books => (s, status400 msg_no_book)
  | inl negative_number => (s, status400 msg_negative)
  | inl sql_error => (s, status400 msg_server)
  end.

(** The bound [$1]: [value] is [Number(req.query.value)], which
    node-postgres sends as the text [String(value)].  The parameter takes
    the type of the [integer] column it is assigned to or combined with,
    which accepts only the text of an integer in range: a fractional value,
    [NaN], an infinity or a value beyond the range makes statement 1 fail
    before any row is read. *)
Definition int_param (value : Js.jsnum) : option Z :=
  match value with
  | Js.jfin q =>
      let z := Z.quot (Qnum q) (Zpos (Qden q)) in
      if (Z.rem (Qnum q) (Zpos (Qden q)) =? 0) && in_int4 z then Some z else None
  | _ => None
  end.

(** [PUT /books/update] after its checks, for the number [value]. *)
Definition update_route (s : store) (isbn : string) (rt : ratingtype) (ct : changetype)
  (value : Js.jsnum) : store * response :=
  match int_param value with
  | Some v => update_rating s isbn rt ct v
  | None => (s, status400 msg_server)
  end.

(** The cached fields of a row agree with its buckets. *)
Definition derived_ok (b : book) : Prop :=
  rating_count b = bucket_sum b /\
  rating_avg b = pg_round2 (inject_Z (weighted_sum b) / inject_Z (bucket_sum b)).

(** What a successful run writes into a matched row, after statement 1. *)
Definition recompute_row (b : book) : book :=
  let c := calc_count_row b in
  set_avg c (pg_round2 (inject_Z (weighted_sum c) / inject_Z (rating_count c))).

(** The avg statement on a row whose sum did not overflow. *)
Definition avg_row (b : book) : book :=
  set_avg b (pg_round2 (inject_Z (weighted_sum b) / inject_Z (rating_count b))).

(** The buckets of a row are non-negative. *)
Definition buckets_nonneg (b : book) : Prop := forall rt, 0 <= get_col rt b.

Definition ex_isbn := "9780439023480"%string.
Definition ex_row := mkBook ex_isbn 10 20 30 40 50 150 (pg_round2 (550 # 150)).
Definition ex_row_after :=
  mkBook ex_isbn 10 20 31 40 50 151 (pg_round2 (inject_Z (10 + 40 + 93 + 160 + 250) / 151)).

(** A second row with the same ISBN: the table tolerates duplicates. *)
Definition ex_dup_store := [ex_row; ex_row].

Definition ex_zero_row := mkBook ex_isbn 0 0 1 0 0 1 5.

End RatingUpdate.

(** ** The migration driver ([migrate] and [migrateFromVersion], src/unnamed/part_009) *)
Module Migration.

(** A rejected promise or thrown [Error], with its [err.code] ([undefined]
    for the errors the code throws itself, and for a [TypeError]). *)
Record jserror := mkError { code : option string; message : string }.

(** The [schema_version] table: [None] when the relation does not exist,
    otherwise the [version] column of its rows. *)
Definition db := option (list Z).

(** How each migration script [migrations/upN.sql] fares when run:
    [None] when [fs.readFileSync] and [pool.query] succeed, otherwise the
    error they raise (a failed script leaves the table as it was: the
    multi-statement query runs as one implicit transaction). *)
Definition scripts_env := Z -> option jserror.

(** A successful script N leaves the single row [version = N]: up4.sql and
    up5.sql start with [TRUNCATE schema_version] and insert their version;
    the text of up3.sql is kept at the end of middleware/parameterChecks.ts
    ([TRUNCATE schema_version; INSERT INTO schema_version VALUES (3, ...)]);
    up1.sql creates the table and inserts version 1.  Modelled from the
    spec: up2.sql is not in the repository sources, and is taken to do the
    same, as the spec says of every script. *)
Definition script_effect (n : Z) (d : db) : db := Some [n].

(** The highest script [migrateFromVersion] knows ([case 4]). *)
Definition Latest : Z := 4.

(** [await upgrade(upNPath)] for the scripts still to run, stopping at the
    first one that throws; returns the scripts attempted, the table, and the
    error if one was thrown. *)
Fixpoint run_scripts (env : scripts_env) (todo : list Z) (d : db)
  : list Z * db * option jserror :=
  match todo with
  | [] => ([], d, None)
  | n :: rest =>
      match env n with
      | Some e => ([n], d, Some e)
      | None =>
          let '(ex, d', r) := run_scripts env rest (script_effect n d) in (n :: ex, d', r)
      end
  end.

(** The scripts [version+1 .. 4]: the [switch] falls through every [case]
    below [case 4]. *)
Definition scripts_from (version : Z) : list Z :=
  map (fun k => version + 1 + Z.of_nat k) (seq 0 (Z.to_nat (Latest - version))).

Definition unrecognized (version : Z) : jserror :=
  mkError None "Unrecognized database schema version, panicking!"%string.

(** [migrateFromVersion(version)]: cases 0 to 4, else [default: throw]. *)
Definition migrateFromVersion (env : scripts_env) (version : Z) (d : db)
  : list Z * db * option jserror :=
  if (0 <=? version) && (version <=? Latest) then run_scripts env (scripts_from version) d
  else ([], d, Some (unrecognized version)).

(** [pool.query('SELECT * FROM schema_version')] followed by [res.rows[0].version]. *)
Definition read_version (d : db) : jserror + Z :=
  match d with
  | None => inl (mkError (Some "42P01"%string) "relation schema_version does not exist"%string)
  | Some [] => inl (mkError None "TypeError: Cannot read properties of undefined"%string)
  | Some (v :: _) => inr v
  end.

(** How the promise returned by [migrate()] settles. *)
Inductive outcome :=
  | resolved                      (** resolves, nothing reported *)
  | logged (e : jserror)          (** [console.error], then resolves *)
  | rejected (e : jserror).       (** rejects *)

(** [err.code == '42P01'] *)
Definition is_undefined_table (e : jserror) : bool :=
  match code e with Some c => String.eqb c "42P01"%string | None => false end.

(** The [catch] of [migrate]: code [42P01] runs [migrateFromVersion(0)]
    (whose errors escape), any other error is only logged.  [env_catch] is
    how the scripts fare in that second run: a script that failed in the
    [try] block may succeed there, or fail otherwise. *)
Definition migrate_catch (env_catch : scripts_env) (e : jserror) (ex : list Z) (d : db)
  : list Z * db * outcome :=
  if is_undefined_table e then
    let '(ex2, d2, r2) := migrateFromVersion env_catch 0 d in
    (ex ++ ex2, d2, match r2 with None => resolved | Some e2 => rejected e2 end)
  else (ex, d, logged e).

(** [migrate()]: the [try] block covers both the read and
    [await migrateFromVersion(res.rows[0].version)]; [env] is how the
    scripts fare in the [try] block, [env_catch] in the [catch]. *)
Definition migrate (env env_catch : scripts_env) (d : db) : list Z * db * outcome :=
  match read_version d with
  | inl e => migrate_catch env_catch e [] d
  | inr v =>
      let '(ex, d', r) := migrateFromVersion env v d in
      match r with
      | None => (ex, d', resolved)
      | Some e => migrate_catch env_catch e ex d'
      end
  end.

(** Every script succeeds. *)
Definition all_ok : scripts_env := fun _ => None.

(** A script run in which only script [k] fails, with [e]. *)
Definition fail_at (k : Z) (e : jserror) : scripts_env := fun n => if Z.eqb n k then Some e else None.

(** Errors of the examples: a failing statement, and [42P01]. *)
Definition ex_error := mkError (Some "23505"%string) "duplicate key value"%string.
Definition ex_missing := mkError (Some "42P01"%string) "relation does not exist"%string.

End Migration.


(** ** The keyword format check ([checkQueryFormat], src/unnamed/part_004 and part_006) *)
Module KeywordCheck.
Import Js.

Open Scope char_scope.

(** The character class of the pattern: letters, digits, [\s], the
    double quote and the hyphen. *)
Definition in_class (c : ascii) : bool :=
  is_alpha c || is_digit c || is_space c || Ascii.eqb c (ascii_of_nat 34) || Ascii.eqb c "-".

Definition at_line_end (l : list ascii) : bool :=
  match l with [] => true | c :: _ => is_line_terminator c end.

(** [[class]+$] at the start of [l]: the greedy run is backtracked to its
    longest prefix followed by the end of input or a line terminator;
    returns the number of characters consumed. *)
Fixpoint scan_run (l : list ascii) (j : nat) (best : option nat) : option nat :=
  match l with
  | [] => best
  | c :: r =>
      if in_class c then scan_run r (S j) (if at_line_end r then Some (S j) else best)
      else best
  end.

(** The successive matches of the pattern (with the [g] and [m] flags) in [l], as
    [String.prototype.match] with the [g] flag collects them; [line_start]
    says whether [^] holds at the current position. *)
Fixpoint global_matches (fuel : nat) (line_start : bool) (l : list ascii) : list (list ascii) :=
  match fuel with
  | O => []
  | S f =>
      match l with
      | [] => []
      | c :: r =>
          match (if line_start then scan_run l 0 None else None) with
          | Some (S k) =>
              let m := firstn (S k) l in
              m :: global_matches f (is_line_terminator (last m c)) (skipn (S k) l)
          | _ => global_matches f (is_line_terminator c) r
          end
      end
  end.

Definition query_matches (q : string) : list (list ascii) :=
  let l := list_ascii_of_string q in global_matches (S (length l)) true l.

(** [checkQueryFormat]: [next()] iff [check?.length == 1]. *)
Definition checkQueryFormat (q : string) : bool := Nat.eqb (length (query_matches q)) 1.

(** The characters the spec allows in a keyword. *)
Definition allowed_keyword (q : string) : bool := forallb in_class (list_ascii_of_string q).

(** No line terminator in [l]. *)
Definition no_lt (l : list ascii) : bool := forallb (fun c => negb (is_line_terminator c)) l.

End KeywordCheck.

(** ** The search routes (src/unnamed/part_004 and part_006) *)
Module SearchRoutes.
Import Js.

(** The query string of a request: the keys the routes read, and the
    others by name. [Some ""] is a key given with an empty value. *)
Record search_query := mkQuery {
  q : option string;
  title : option string;
  isbn : option string;
  author : option string;
  min : option string;
  max : option string;
  other_keys : list string
}.

Definition no_query := mkQuery None None None None None None [].

(** A value of the [values] array handed to [pool.query]: a string, or
    [String(n)] of a number [n]. *)
Inductive param := pstr (s : string) | pnum (n : jsnum).

(** What a route does with a request: answer 400 before any query, or
    send [text] with [values] to the connection pool. *)
Inductive route_result :=
| bad_request (message : string)
| store_query (text : string) (values : list param).

Definition defined (o : option string) : nat := match o with Some _ => 1 | None => 0 end%nat.

(** [Object.keys(req.query).length] *)
Definition key_count (r : search_query) : nat :=
  (defined (q r) + defined (title r) + defined (isbn r) + defined (author r)
   + defined (min r) + defined (max r) + length (other_keys r))%nat.

Definition lines (l : list string) : string := String.concat nl l.

(** [getBooksAndAuthorsQuery] of part_004. *)
Definition getBooksAndAuthorsQuery : string := lines [
  ""%string;
  "    SELECT * FROM books INNER JOIN "%string;
  "    (SELECT book, STRING_AGG(authors.name, ', ') AS authors FROM book_author INNER JOIN "%string;
  "        authors ON (authors.id = book_author.author)GROUP BY book) AS author_table"%string;
  "    ON (books.id = author_table.book)"%string].

Definition msg_no_params := "Search required at least one query parameter."%string.
Definition msg_title_blank := "Title cannot be blank."%string.
Definition msg_isbn_blank := "ISBN cannot be blank."%string.
Definition msg_isbn_nan := "The ISBN you passed through the request is not numberic."%string.
Definition msg_isbn_len := "The ISBN you passed through the request is not 13 digits."%string.
(** The body [{}] of the route's own checks. *)
Definition msg_empty := "{}"%string.

(** [parameterChecks.validTitle(req, res)]: [Some m] when it sends 400. *)
Definition validTitle (t : option string) : option string :=
  match t with
  | Some s => if truthy t && blank s then Some msg_title_blank else None
  | None => None
  end.

(** [parameterChecks.validISBN(req, res)] *)
Definition validISBN (i : option string) : option string :=
  match i with
  | Some s =>
      if truthy i && blank s then Some msg_isbn_blank
      else if negb (isNumberProvided s) then Some msg_isbn_nan
      else if negb (Nat.eqb (String.length s) 13) then Some msg_isbn_len
      else None
  | None => Some msg_isbn_nan
  end.

(** [Number(a) > Number(b)]; a comparison with [NaN] is false. *)
Definition num_gt (a b : jsnum) : bool := js_lt b a.

Fixpoint first_some (l : list (option string)) : option string :=
  match l with
  | [] => None
  | Some m :: _ => Some m
  | None :: l' => first_some l'
  end.

(** First handler: at least one key in the query string. *)
Definition handler1 (r : search_query) : option string :=
  if Nat.ltb 0 (key_count r) then None else Some msg_no_params.

(** Second handler: [Some m] when a 400 is sent (the first one sent is the
    response), [None] when the status is still 200 and [next()] runs. *)
Definition handler2 (r : search_query) : option string :=
  if truthy (q r) then None
  else first_some [
    (if truthy (title r) then validTitle (title r) else None);
    (if truthy (isbn r) then validISBN (isbn r) else None);
    (match author r with
     | Some a => if truthy (author r) && blank a then Some msg_empty else None
     | None => None
     end);
    (if (truthy (min r) && is_nan (number (min r))) || num_gt (number (min r)) (jfin 5)
     then Some msg_empty else None);
    (if (truthy (max r) && is_nan (number (max r))) || num_gt (jfin 0) (number (max r))
     then Some msg_empty else None);
    (if truthy (min r) && truthy (max r) && num_gt (number (min r)) (number (max r))
     then Some msg_empty else None)].

(** [if (!getBooks.endsWith('WHERE')) getBooks = getBooks.concat(' AND')] *)
Definition add_and (t : string) : string :=
  if ends_with t "WHERE" then t else (t ++ " AND")%string.

Definition ph (n : nat) : string := ("$" ++ nat_to_string n)%string.

(** The statement under construction: text, [count], values. *)
Record builder := mkBuilder { text : string; count : nat; values : list param }.

Definition add_isbn (r : search_query) (b : builder) : builder :=
  match isbn r with
  | Some i =>
      if truthy (isbn r) then
        mkBuilder (add_and (text b) ++ " isbn13 = " ++ ph (count b))
                  (S (count b)) (values b ++ [pstr i])
      else b
  | None => b
  end.

Definition add_title (r : search_query) (b : builder) : builder :=
  match title r with
  | Some t =>
      if truthy (title r) then
        let n := count b in
        mkBuilder (add_and (text b) ++ " (title LIKE " ++ ph n ++ " " ++ nl
                   ++ "                            OR title LIKE " ++ ph (S n)
                   ++ " OR DIFFERENCE(title, " ++ ph (S (S n)) ++ ") > 2)")
                  (S (S (S n))) (values b ++ [pstr t; pstr (capitalize t); pstr t])
      else b
  | None => b
  end.

Definition add_author (r : search_query) (b : builder) : builder :=
  match author r with
  | Some a =>
      if truthy (author r) then
        mkBuilder (add_and (text b) ++ " authors LIKE " ++ ph (count b))
                  (S (count b)) (values b ++ [pstr ("%" ++ a ++ "%")])
      else b
  | None => b
  end.

Definition add_rating (r : search_query) (b : builder) : builder :=
  if truthy (min r) || truthy (max r) then
    let lowerLimit := if truthy (min r) then number (min r) else jfin 0 in
    let upperLimit := if truthy (max r) then number (max r) else jfin 5 in
    let n := count b in
    mkBuilder (add_and (text b) ++ " rating_avg BETWEEN " ++ ph n ++ " AND " ++ ph (S n))
              (S (S n)) (values b ++ [pnum lowerLimit; pnum upperLimit])
  else b.

(** Third handler: the statement built from the truthy keys (the keyword
    branch is a placeholder), sent by [queryAndResponse]. *)
Definition handler3 (r : search_query) : route_result :=
  let b0 := mkBuilder (getBooksAndAuthorsQuery ++ " WHERE") 1 [] in
  let b := if truthy (q r) then b0
           else add_rating r (add_author r (add_title r (add_isbn r b0))) in
  store_query (text b) (values b).

(** [GET /search] of part_004, the first [/search] registration: every path
    through it answers, so the keyword registration below it is never reached. *)
Definition search_route (r : search_query) : route_result :=
  match handler1 r with
  | Some m => bad_request m
  | None =>
      match handler2 r with
      | Some m => bad_request m
      | None => handler3 r
      end
  end.

(** [getBooksAndAuthorsQuery] of part_006. *)
Definition getBooksAndAuthorsQuery6 : string := lines [
  ""%string;
  "    SELECT *"%string;
  "    FROM books"%string;
  "             INNER JOIN"%string;
  "         (SELECT book, STRING_AGG(authors.name, ', ') AS authors"%string;
  "          FROM book_author"%string;
  "                   INNER JOIN"%string;
  "               authors ON (authors.id = book_author.author)"%string;
  "          GROUP BY book) AS author_table"%string;
  "         ON (books.id = author_table.book)"%string].

Definition msg_title_missing := "Missing parameter - title required."%string.

(** The statement of [GET /search/title] (part_006), the title spliced into the text. *)
Definition title_text (t : string) : string :=
  (getBooksAndAuthorsQuery6 ++ " " ++ nl
   ++ "            WHERE title LIKE '" ++ t ++ "' " ++ nl
   ++ "            OR title LIKE '" ++ capitalize t ++ "' " ++ nl
   ++ "            OR DIFFERENCE(title, '" ++ t ++ "') > 2 " ++ nl
   ++ "            ORDER BY SIMILARITY(title, '" ++ t ++ "') DESC")%string.

(** [GET /search/title] of part_006: its [queryAndResponse] calls
    [pool.query(theQuery)] with no values. *)
Definition title_route (t : option string) : route_result :=
  match t with
  | Some s => if negb (truthy t) || blank s then bad_request msg_title_missing
              else store_query (title_text s) []
  | None => bad_request msg_title_missing
  end.

(** Requests used below. *)
Definition only_title (t : string) := mkQuery None (Some t) None None None None [].
Definition injected_title := "x' OR '1'='1"%string.
Definition bad_keyword := ("abc" ++ nl ++ ";")%string.

End SearchRoutes.

(** ** Pagination ([validOffset], [validPage], src/src/core/middleware/index.ts,
    and [GET /all/title], src/src/routes/open/books.ts) *)
Module Pagination.
Import Js.

(** [validOffset]: [None] when it answers 400, else the page size it
    writes back as [offset.toString()] (read back unchanged by [Number]). *)
Definition validOffset (offset : option string) : option jsnum :=
  let v := match offset with
           | None => Some (jfin 15)
           | Some s => if isNumberProvided s then Some (js_number s) else None
           end in
  match v with
  | Some n => let a := js_abs n in Some (if js_eq0 a then jfin 15 else a)
  | None => None
  end.

(** [validPage], given the page size [offset] set by [validOffset] and the
    [COUNT(id)] the store returns. *)
Definition validPage (page : option string) (offset : jsnum) (rowCount : Z) : option jsnum :=
  let v := match page with
           | None => Some (jfin 1)
           | Some s => if isNumberProvided s then Some (js_number s) else None
           end in
  match v with
  | Some p =>
      let maxPage := js_ceil (js_div (jfin (inject_Z rowCount)) (js_abs offset)) in
      Some (if js_lt maxPage p then maxPage else if js_lt p (jfin 1) then jfin 1 else p)
  | None => None
  end.

(** The middlewares of [GET /all/title] in order: the page size and page. *)
Definition paginate (offset page : option string) (rowCount : Z) : option (jsnum * jsnum) :=
  match validOffset offset with
  | Some size =>
      match validPage page size rowCount with
      | Some p => Some (size, p)
      | None => None
      end
  | None => None
  end.

(** [values] of [GET /all/title]: [[offset * (page - 1), offset]]. *)
Definition all_title_values (size page : jsnum) : list jsnum :=
  [js_mul size (js_sub page (jfin 1)); size].

End Pagination.

(** ** Query-string values and the middleware of src/src/core/middleware/index.ts *)
Module Middleware.
Import Js.
Local Open Scope string_scope.

(** A value of [req.query] as Express's query parser gives it: a string, an
    array ([?a=x&a=y] or [?a[]=x]) or an object ([?a[k]=x]). *)
#[warnings="-register-all"]
Inductive qval := qstr (s : string) | qarr (l : list qval) | qobj.

(** [String(v)]: an array is joined with commas, an object is
    [[object Object]]; it is also the primitive a loose comparison
    [v != 'lit'] and [Number(v)] convert [v] to. *)
Fixpoint to_str (v : qval) : string :=
  match v with
  | qstr s => s
  | qarr l => String.concat "," (map to_str l)
  | qobj => "[object Object]"
  end.

(** [String(req.query.x)] and [`${req.query.x}`]: [undefined] when absent. *)
Definition str_o (o : option qval) : string :=
  match o with Some v => to_str v | None => "undefined" end.

(** [v != 'lit'] (loose) *)
Definition loose_neq (v : qval) (lit : string) : bool := negb (String.eqb (to_str v) lit).

(** [v === 'lit'] (strict): only a string can be equal. *)
Definition strict_eq (o : option qval) (lit : string) : bool :=
  match o with Some (qstr s) => String.eqb s lit | _ => false end.

(** Truthiness of [req.query.x]: arrays and objects are truthy. *)
Definition truthy_q (o : option qval) : bool :=
  match o with
  | None => false
  | Some (qstr s) => negb (String.eqb s "")
  | Some _ => true
  end.

(** [Number(req.query.x)] *)
Definition number_q (o : option qval) : jsnum :=
  match o with Some v => js_number (to_str v) | None => jnan end.

(** [validOrderby]: the value it leaves in [req.query.orderby]. *)
Definition validOrderby (o : option qval) : qval :=
  let orderby := match o with Some v => v | None => qstr "title" end in
  if loose_neq orderby "title" && loose_neq orderby "author" && loose_neq orderby "year"
  then qstr "title" else orderby.

(** [validSort]: the value it leaves in [req.query.sort]. *)
Definition validSort (o : option qval) : qval :=
  let sort := match o with Some v => v | None => qstr "asc" end in
  if loose_neq sort "asc" && loose_neq sort "desc" then qstr "asc" else sort.

Definition rating_columns : list string :=
  ["rating_1_star"; "rating_2_star"; "rating_3_star"; "rating_4_star"; "rating_5_star"].

Definition change_types : list string := ["decreaseby"; "increaseby"; "setto"].

(** [validRatingType]: [Some m] when it answers 400. *)
Definition validRatingType (o : option qval) : option string :=
  if (truthy_q o && blank (str_o o)) || negb (existsb (String.eqb (str_o o)) rating_columns)
  then Some "Invalid rating type." else None.

(** [validRatingChangeType] *)
Definition validRatingChangeType (o : option qval) : option string :=
  if (truthy_q o && blank (str_o o)) || negb (existsb (String.eqb (str_o o)) change_types)
  then Some "Invalid rating change type." else None.

(** [validRatingValue] *)
Definition validRatingValue (o : option qval) : option string :=
  if truthy_q o && is_nan (number_q o)
  then Some "Invalid value to set or change rating by." else None.

(** [validISBN] (3 arguments, the one [PUT /update] and
    [DELETE /deleteIsbn] use), for an ISBN given as a string: [Some m]
    when it answers 400. *)
Definition validISBN (isbn : option string) : option string :=
  match isbn with
  | Some s =>
      if String.eqb s "" then None
      else if negb (isNumberProvided s) then Some "Can not parse ISBN."
      else if negb (Nat.eqb (String.length s) 13) then Some "ISBN must be 13 characters."
      else None
  | None => None
  end.

(** [clamp(n, max, min)]: [n <= min ? min : n >= max ? max : n]; every
    comparison with [NaN] is false, so [NaN] is returned as it is. *)
Definition clamp_num (n : jsnum) (mx mn : Q) : jsnum :=
  if js_le n (jfin mn) then jfin mn else if js_le (jfin mx) n then jfin mx else n.

(** What [validMinMax] does, in order: call [next()], call [next()] after
    setting [min] and [max] to the given numbers, or answer 400. *)
Inductive mm_event := mm_next | mm_next_with (mn mx : jsnum) | mm_400.

(** [validMinMax], for a given [isNumberProvided]: after the first [if],
    [req.query.min] and [req.query.max] hold [min1] and [max1]; the second
    [if] clamps them ([clamp(...).toString()] read back by [Number]). *)
Definition validMinMax (isNumberProvided : option qval -> bool) (min max : option qval)
  : list mm_event :=
  let '(min1, max1, ev1) :=
    if truthy_q min || truthy_q max then
      ((if isNumberProvided min then min else Some (qstr "1")),
       (if isNumberProvided max then max else Some (qstr "5")), [])
    else (min, max, [mm_next]) in
  if truthy_q min1 || truthy_q max1 || (isNumberProvided min1 && isNumberProvided max1) then
    let a := clamp_num (number_q min1) 5 1 in
    let b := clamp_num (number_q max1) 5 1 in
    ev1 ++ [if SearchRoutes.num_gt a b then mm_400 else mm_next_with a b]
  else ev1.

(** An instance of [isNumberProvided] on query values: the string form is
    given and numeric (used in examples only). *)
Definition isNP_q (o : option qval) : bool :=
  match o with Some v => isNumberProvided (to_str v) | None => false end.

End Middleware.

(** ** Listing and rating routes *)
Module BookRoutes.
Import Js Middleware SearchRoutes Pagination.
Local Open Scope string_scope.

(** The statement of [GET /all/title] (src/src/routes/open/books.ts), with
    [req.query.sort] spliced in. *)
Definition all_title_text (sort : string) : string := lines [
  "SELECT * FROM books INNER JOIN ";
  "            (SELECT book, STRING_AGG(authors.name, ', ') AS authors FROM book_author";
  "                INNER JOIN authors ON (authors.id = book_author.author)";
  "                GROUP BY book) AS author_table";
  "            ON (books.id = author_table.book)";
  "            ORDER BY title " ++ sort ++ " OFFSET $1 LIMIT $2;"].

Definition msg_offset_nan := "The offset you passed through the request is not numberic.".
Definition msg_page_nan := "The page number you passed through the request is not numberic.".

(** [GET /all/title]: [validSort], [validOffset], [validPage] (given the
    [COUNT(id)] of the store), then the query with [[offset * (page - 1), offset]]. *)
Definition all_title_route (sort : option qval) (offset page : option string) (rowCount : Z)
  : route_result :=
  let s := validSort sort in
  match validOffset offset with
  | None => bad_request msg_offset_nan
  | Some size =>
      match validPage page size rowCount with
      | None => bad_request msg_page_nan
      | Some p =>
          store_query (all_title_text (to_str s))
            (map pnum (all_title_values size p))
      end
  end.

(** [orderQuery[String(req.query.orderby)]] of [GET /all] (part_004); the
    last case is not reached, since [validOrderby] runs first. *)
Definition orderQuery (k : string) : string :=
  if String.eqb k "title" then "title "
  else if String.eqb k "author" then "author_table.author "
  else if String.eqb k "year" then "publication_year, title "
  else "undefined".

Definition all_text : string := getBooksAndAuthorsQuery ++ " ORDER BY $1 OFFSET $2 LIMIT $3;".

(** [GET /all] of part_004: [validOrderby], [validSort], [validOffset],
    [validPage], then [queryAndResponse] with three string values. *)
Definition all_route (orderby sort : option qval) (offset page : option string) (rowCount : Z)
  : route_result :=
  let o := validOrderby orderby in
  let s := validSort sort in
  match validOffset offset with
  | None => bad_request msg_offset_nan
  | Some size =>
      match validPage page size rowCount with
      | None => bad_request msg_page_nan
      | Some p =>
          store_query all_text
            [pstr (orderQuery (to_str o) ++ to_str s); pnum (js_mul size (js_sub p (jfin 1)));
             pnum size]
      end
  end.

(** The [UPDATE] statement of [PUT /books/update] (src/src/routes/closed/books.ts). *)
Definition update_text (ratingtype changetype : option qval) : string :=
  let c := str_o ratingtype in
  "UPDATE books SET " ++ c ++ " = "
  ++ (if strict_eq changetype "increaseby" then c ++ " + $1 "
      else if strict_eq changetype "decreaseby" then c ++ " - $1 "
      else "$1 ")
  ++ "WHERE isbn13 = $2;".

(** The [SELECT] that reads the bucket back. *)
Definition select_text (ratingtype : option qval) : string :=
  "SELECT " ++ str_o ratingtype ++ " FROM books WHERE isbn13 = $1;".

(** [validRatingType], [validRatingChangeType], [validRatingValue] in the
    order of the route: the first 400, if any. *)
Definition update_checks (ratingtype changetype value : option qval) : option string :=
  first_some [validRatingType ratingtype; validRatingChangeType changetype;
              validRatingValue value].

(** [$1] of the [UPDATE]: [Number(req.query.value)]. *)
Definition update_value (value : option qval) : param := pnum (number_q value).

(** The three statements a valid [ratingtype] and [changetype] can give. *)
Definition update_forms (c : string) : list string :=
  ["UPDATE books SET " ++ c ++ " = " ++ c ++ " + $1 WHERE isbn13 = $2;";
   "UPDATE books SET " ++ c ++ " = " ++ c ++ " - $1 WHERE isbn13 = $2;";
   "UPDATE books SET " ++ c ++ " = $1 WHERE isbn13 = $2;"].

Definition rating_text := "SELECT * FROM books WHERE rating_avg BETWEEN $1 AND $2 ORDER BY title ASC;".



(** The six first values [GET /all] can bind: [orderQuery] entry and direction. *)
Definition order_values : list string :=
  ["title asc"; "title desc"; "author_table.author asc"; "author_table.author desc";
   "publication_year, title asc"; "publication_year, title desc"].

(** A rating column of the examples. *)
Definition ex_rt := Some (qstr "rating_2_star").

End BookRoutes.

(** ** The delete routes over [books] and [book_author] *)
Module Catalog.
Import Js.
Local Open Scope string_scope.

(** The rows the delete routes touch: [books(id, isbn13)] and
    [book_author(book, author)], whose [book] references [books.id]. *)
Record catalog := mkCatalog { books : list (Z * string); book_author : list (Z * Z) }.

(** Modelled from the spec: the [books] table is not created in the
    sources; as the spec's Book has a 13-digit identifier string, [isbn13] is
    text, and [isbn13 = $1] compares strings ([$1] bound to [NULL] when the
    ISBN is [undefined]). *)
Definition isbn_is (isbn : option string) (r : Z * string) : bool :=
  match isbn with Some i => String.eqb (snd r) i | None => false end.

Definition ids_where (p : Z * string -> bool) (c : catalog) : list Z :=
  map fst (filter p (books c)).

Definition mem (x : Z) (l : list Z) : bool := existsb (Z.eqb x) l.

(** [DELETE FROM book_author WHERE book IN (SELECT id FROM books WHERE ...)] *)
Definition delete_links_in (p : Z * string -> bool) (c : catalog) : catalog :=
  let ids := ids_where p c in
  mkCatalog (books c) (filter (fun l => negb (mem (fst l) ids)) (book_author c)).

(** [DELETE FROM books WHERE ...]: fails on [book_author_book_fkey] when a
    link would be left pointing to no book. *)
Definition delete_books (p : Z * string -> bool) (c : catalog) : option catalog :=
  let kept := filter (fun r => negb (p r)) (books c) in
  let gone := ids_where p c in
  if existsb (fun l => mem (fst l) gone && negb (mem (fst l) (map fst kept))) (book_author c)
  then None
  else Some (mkCatalog kept (book_author c)).

(** A statement of the pool, and a run of several, stopping at the first error. *)
Inductive stmt := s_delete_links (p : Z * string -> bool) | s_delete_books (p : Z * string -> bool).

Definition run_stmt (s : stmt) (c : catalog) : option catalog :=
  match s with
  | s_delete_links p => Some (delete_links_in p c)
  | s_delete_books p => delete_books p c
  end.

Fixpoint run_stmts (l : list stmt) (c : catalog) : option catalog :=
  match l with
  | [] => Some c
  | s :: r => match run_stmt s c with Some c' => run_stmts r c' | None => None end
  end.

(** The orders in which the statements of two promise chains can reach the
    store: every interleaving that keeps each chain's own order. *)
Fixpoint merges {A} (l1 : list A) : list A -> list (list A) :=
  fix inner l2 :=
    match l1, l2 with
    | [], _ => [l2]
    | _, [] => [l1]
    | x :: r1, y :: r2 => (map (cons x) (merges r1 l2) ++ map (cons y) (inner r2))%list
    end.

(** One chain of [DELETE /books/deleteIsbn] (closed/books.ts): the links,
    then the books. *)
Definition delete_isbn_chain (isbn : option string) : list stmt :=
  [s_delete_links (isbn_is isbn); s_delete_books (isbn_is isbn)].

(** The handler runs the chain twice, as two independent promise chains. *)
Definition delete_isbn_schedules (isbn : option string) : list (list stmt) :=
  merges (delete_isbn_chain isbn) (delete_isbn_chain isbn).

(** The store once the books satisfying [p] and their links are removed. *)
Definition delete_effect (p : Z * string -> bool) (c : catalog) : catalog :=
  mkCatalog (filter (fun r => negb (p r)) (books c))
            (filter (fun l => negb (mem (fst l) (ids_where p c))) (book_author c)).

(** [DELETE FROM book_author WHERE book = (SELECT id FROM books WHERE isbn13 = $1)]
    of [DELETE /deleteBook/:isbn] (part_004, part_006, open/books.ts): the
    subquery gives [NULL] on no row and fails on more than one.  It is an
    InitPlan, run when its value is first needed: with [eager] the plan
    needs it before reading [book_author] (an index condition), otherwise
    only for the first row of [book_author] it filters (a sequential scan),
    so on an empty [book_author] it is never run and cannot fail. *)
Definition delete_links_eq (eager : bool) (isbn : string) (c : catalog) : option catalog :=
  match ids_where (isbn_is (Some isbn)) c with
  | [] => Some c
  | [i] => Some (mkCatalog (books c) (filter (fun l => negb (Z.eqb (fst l) i)) (book_author c)))
  | _ =>
      if eager then None
      else match book_author c with [] => Some c | _ :: _ => None end
  end.

(** [DELETE /deleteBook/:isbn]: the store after it, and the status sent
    (200 [Deleted book.], or 500 from the [catch]). *)
Definition deleteBook_route (eager : bool) (isbn : string) (c : catalog) : catalog * Z :=
  match delete_links_eq eager isbn c with
  | None => (c, 500)
  | Some c1 =>
      match delete_books (isbn_is (Some isbn)) c1 with
      | Some c2 => (c2, 200)
      | None => (c1, 500)
      end
  end.

(** [parseInt(s, 10)]: leading white space, a sign, then the longest run of
    digits; [None] ([NaN]) when there is no digit. *)
Definition parse_int (s : string) : option Z :=
  let l := drop_spaces (list_ascii_of_string s) in
  let '(sign, r) := match l with
                    | c :: r => if Ascii.eqb c "-"%char then ((-1)%Z, r)
                                else if Ascii.eqb c "+"%char then (1%Z, r) else (1%Z, l)
                    | [] => (1%Z, l)
                    end in
  let '(n, k, _) := digits r 0 0 in
  if Nat.eqb k 0 then None else Some (sign * n).

(** How [DELETE /books/deleteRangeBooks] (closed/books.ts) ends: 400,
    a 200 after both statements, or no response at all when the store
    rejects a bound (the chain has no [catch]). *)
Inductive range_outcome :=
| range_400 (message : string)
| range_200 (c : catalog)
| range_no_response.

Definition in_range (lo hi : Z) (r : Z * string) : bool := Z.leb lo (fst r) && Z.leb (fst r) hi.

(** Modelled from the spec: [books.id] (not created in the sources) is taken
    as [INTEGER], as [book_author.book] that references it (up1.sql); the
    store rejects a bound [$1], [$2] outside its range. *)
Definition int4_ok (z : Z) : bool := Z.leb (-2147483648) z && Z.leb z 2147483647.

(** The number [parse_int] returns. *)
Definition int_num (o : option Z) : jsnum :=
  match o with Some z => jfin (inject_Z z) | None => jnan end.

Definition deleteRangeBooks_route (min_id max_id : option string) (c : catalog) : range_outcome :=
  if negb (truthy min_id) || negb (truthy max_id) || is_nan (number min_id)
     || is_nan (number max_id)
  then range_400 "Please provide valid min_id and max_id parameters"
  else
    let minId := match min_id with Some s => parse_int s | None => None end in
    let maxId := match max_id with Some s => parse_int s | None => None end in
    if SearchRoutes.num_gt (int_num minId) (int_num maxId)
    then range_400 "Min range must be less than max range"
    else
      match minId, maxId with
      | Some lo, Some hi =>
          if negb (int4_ok lo && int4_ok hi) then range_no_response else
          match run_stmts [s_delete_links (in_range lo hi); s_delete_books (in_range lo hi)] c with
          | Some c' => range_200 c'
          | None => range_no_response
          end
      | _, _ => range_no_response
      end.

(** Every link of [book_author] points to a row of [books]. *)
Definition links_ok (c : catalog) : Prop :=
  forall l, In l (book_author c) -> In (fst l) (map fst (books c)).

(** A small store of the examples. *)
Definition ex_catalog : catalog :=
  mkCatalog [(1, "9780439023480"); (2, "9780316015844"); (3, "9780061120084")]
            [(1, 10); (1, 11); (2, 12); (3, 13)].

End Catalog.

(** ** The field checks of [POST /books/addBook] (src/src/routes/closed/books.ts) *)
Module AddBook.
Import Js.
Local Open Scope string_scope.

(** A value of the parsed JSON body ([undefined] for a missing field). *)
#[warnings="-register-all"]
Inductive jval := jundef | jnull | jbool (b : bool) | jnum (n : Q) | jstr (s : string)
                | jarr (l : list jval) | jobj.

Definition body := string -> jval.

(** [!v] is false: JSON numbers are never [NaN]. *)
Definition truthy_j (v : jval) : bool :=
  match v with
  | jundef | jnull => false
  | jbool b => b
  | jnum n => negb (Qeq_bool n 0)
  | jstr s => negb (String.eqb s "")
  | jarr _ | jobj => true
  end.

(** [!isbn13 || typeof isbn13 !== 'string' || isbn13.length !== 13 ||
    !/^\d{13}$/.test(isbn13)], negated. *)
Definition isbn_ok (v : jval) : bool :=
  match v with
  | jstr s => negb (String.eqb s "") && Nat.eqb (String.length s) 13
              && forallb is_digit (list_ascii_of_string s)
  | _ => false
  end.

Definition requiredFields : list string :=
  ["id"; "isbn13"; "authors"; "publication_year"; "original_title"; "title"; "rating_avg";
   "rating_count"; "rating_1_star"; "rating_2_star"; "rating_3_star"; "rating_4_star";
   "rating_5_star"; "image_url"; "image_small_url"].

Inductive check_result := isbn_rejected | missing_rejected | to_rating_check.

(** The first two checks of the handler, in order. *)
Definition addBook_checks (b : body) : check_result :=
  if negb (isbn_ok (b "isbn13")) then isbn_rejected
  else if Nat.ltb 0 (length (filter (fun f => negb (truthy_j (b f))) requiredFields))
  then missing_rejected
  else to_rating_check.

(** A body of the examples: a valid [isbn13], a zero [rating_1_star]. *)
Definition ex_body : body := fun f =>
  if String.eqb f "isbn13" then jstr "9780439023480"
  else if String.eqb f "rating_1_star" then jnum 0
  else jstr "x".

End AddBook.

(* ================================================================= *)
(** * Proofs *)

Module RatingUpdateFacts.
Import RatingUpdate.

Lemma matches_true isbn b : matches isbn b = true <-> isbn13 b = isbn.
Proof. apply String.eqb_eq. Qed.

Lemma update_rows_none isbn f s b :
  In b s -> isbn13 b = isbn -> f b = None -> update_rows isbn f s = None.
Proof.
  induction s as [|b0 s IH]; simpl; [tauto|].
  intros [-> | Hin] Hisbn Hf.
  - destruct (update_rows isbn f s) as [[n s'']|]; [|reflexivity].
    rewrite Hisbn, String.eqb_refl, Hf. reflexivity.
  - rewrite (IH Hin Hisbn Hf). reflexivity.
Qed.

Lemma update_rows_some isbn f s n s' :
  update_rows isbn f s = Some (n, s') ->
  (forall b, In b s -> isbn13 b = isbn -> f b <> None) /\
  n = length (filter (matches isbn) s) /\
  s' = map (fun b => if matches isbn b then match f b with Some b' => b' | None => b end else b) s.
Proof.
  revert n s'; induction s as [|b0 s IH]; simpl; intros n s' H.
  - inversion H; subst. split; [tauto | auto].
  - destruct (update_rows isbn f s) as [[m s'']|] eqn:E; [|discriminate].
    destruct (IH m s'' eq_refl) as [Hall [Hm Hs]].
    unfold matches in *; simpl.
    destruct (String.eqb (isbn13 b0) isbn) eqn:Eb.
    + destruct (f b0) as [b'|] eqn:Ef; [|discriminate].
      inversion H; subst. split; [|split; reflexivity].
      intros b [<- | Hin] Hi; [congruence | apply Hall; auto].
    + inversion H; subst. split; [|split; reflexivity].
      intros b [<- | Hin] Hi; [|apply Hall; auto].
      apply String.eqb_neq in Eb. contradiction.
Qed.

(** A statement whose row function gives [g b] on every matched row succeeds. *)
Lemma update_rows_ok isbn f g s :
  (forall b, In b s -> matches isbn b = true -> f b = Some (g b)) ->
  update_rows isbn f s =
  Some (length (filter (matches isbn) s), map (fun b => if matches isbn b then g b else b) s).
Proof.
  induction s as [|b0 s IH]; simpl; intros H; [reflexivity|].
  rewrite IH by (intros b Hb Hm; apply H; auto).
  unfold matches in *. destruct (String.eqb (isbn13 b0) isbn) eqn:E; [|reflexivity].
  rewrite (H b0 (or_introl eq_refl) E). reflexivity.
Qed.

(** A successful statement whose row function only ever gives [g b]. *)
Lemma update_rows_map isbn f g s n s' :
  update_rows isbn f s = Some (n, s') ->
  (forall b b', f b = Some b' -> b' = g b) ->
  n = length (filter (matches isbn) s) /\
  s' = map (fun b => if matches isbn b then g b else b) s.
Proof.
  intros H Hg. apply update_rows_some in H. destruct H as [Hall [Hn ->]].
  split; [exact Hn|]. apply map_ext_in. intros b Hin.
  destruct (matches isbn b) eqn:Hm; [|reflexivity].
  destruct (f b) as [b'|] eqn:Hf; [apply Hg; exact Hf|].
  exfalso. apply (Hall b Hin (proj1 (matches_true _ _) Hm) Hf).
Qed.

Lemma isbn13_change_row rt ct v b : isbn13 (change_row rt ct v b) = isbn13 b.
Proof. destruct b, rt; reflexivity. Qed.

Lemma get_col_change_row rt ct v b :
  get_col rt (change_row rt ct v b) = apply_change ct (get_col rt b) v.
Proof. destruct b, rt; reflexivity. Qed.

Lemma isbn13_calc_count_row b : isbn13 (calc_count_row b) = isbn13 b.
Proof. destruct b; reflexivity. Qed.

Lemma matches_change_row isbn rt ct v b :
  matches isbn (change_row rt ct v b) = matches isbn b.
Proof. unfold matches. rewrite isbn13_change_row. reflexivity. Qed.

Lemma matches_calc_count_row isbn b :
  matches isbn (calc_count_row b) = matches isbn b.
Proof. unfold matches. rewrite isbn13_calc_count_row. reflexivity. Qed.

Lemma filter_map_matches isbn g s :
  (forall b, isbn13 (g b) = isbn13 b) ->
  filter (matches isbn) (map (fun b => if matches isbn b then g b else b) s)
  = map g (filter (matches isbn) s).
Proof.
  intros Hg. induction s as [|b s IH]; simpl; [reflexivity|].
  destruct (matches isbn b) eqn:E; simpl.
  - unfold matches at 1. rewrite Hg. fold (matches isbn b). rewrite E, IH. reflexivity.
  - rewrite E. exact IH.
Qed.

Lemma recompute_row_avg b : recompute_row b = avg_row (calc_count_row b).
Proof. reflexivity. Qed.

Lemma matches_avg_row isbn b : matches isbn (avg_row b) = matches isbn b.
Proof. destruct b; reflexivity. Qed.

Lemma add4_inv a b z :
  add4 a b = Some z -> exists x y, a = Some x /\ b = Some y /\ z = x + y.
Proof.
  destruct a as [x|], b as [y|]; simpl; try discriminate.
  destruct (in_int4 (x + y)); [|discriminate].
  intros H; injection H as <-. eauto.
Qed.

Lemma mul4_inv k a z : mul4 k a = Some z -> exists x, a = Some x /\ z = k * x.
Proof.
  destruct a as [x|]; simpl; [|discriminate].
  destruct (in_int4 (k * x)); [|discriminate].
  intros H; injection H as <-. eauto.
Qed.

Ltac inv4 :=
  repeat match goal with
         | H : add4 _ _ = Some _ |- _ =>
             apply add4_inv in H; destruct H as (? & ? & ? & ? & ?)
         | H : mul4 _ _ = Some _ |- _ =>
             apply mul4_inv in H; destruct H as (? & ? & ?)
         | H : Some _ = Some _ |- _ => injection H as H
         end; subst.

Lemma count_expr_sum b c : count_expr b = Some c -> c = bucket_sum b.
Proof. unfold count_expr, bucket_sum. intros H. inv4. lia. Qed.

Lemma avg_expr_sum b w : avg_expr b = Some w -> w = weighted_sum b.
Proof. unfold avg_expr, weighted_sum. intros H. inv4. lia. Qed.

Lemma add4_ok x y :
  0 <= x -> 0 <= y -> x + y <= int4_max -> add4 (Some x) (Some y) = Some (x + y).
Proof.
  intros Hx Hy H. unfold add4, in_int4, int4_min, int4_max in *.
  replace ((-2147483648 <=? x + y) && (x + y <=? 2147483647)) with true by (symmetry; apply andb_true_iff; split; apply Z.leb_le; lia).
  reflexivity.
Qed.

Lemma mul4_ok k x :
  0 <= k -> 0 <= x -> k * x <= int4_max -> mul4 k (Some x) = Some (k * x).
Proof.
  intros Hk Hx H. unfold mul4, in_int4, int4_min, int4_max in *.
  replace ((-2147483648 <=? k * x) && (k * x <=? 2147483647)) with true.
  - reflexivity.
  - symmetry. apply andb_true_iff; split; apply Z.leb_le; nia.
Qed.

Lemma count_expr_ok b :
  buckets_nonneg b -> weighted_sum b <= int4_max -> count_expr b = Some (bucket_sum b).
Proof.
  intros H Hw. pose proof (H R1) as H1; pose proof (H R2) as H2; pose proof (H R3) as H3;
  pose proof (H R4) as H4; pose proof (H R5) as H5. cbn [get_col] in *.
  unfold count_expr, bucket_sum, weighted_sum in *.
  rewrite add4_ok by lia. rewrite add4_ok by lia. rewrite add4_ok by lia.
  rewrite add4_ok by lia. reflexivity.
Qed.

Lemma avg_expr_ok b :
  buckets_nonneg b -> weighted_sum b <= int4_max -> avg_expr b = Some (weighted_sum b).
Proof.
  intros H Hw. pose proof (H R1) as H1; pose proof (H R2) as H2; pose proof (H R3) as H3;
  pose proof (H R4) as H4; pose proof (H R5) as H5. cbn [get_col] in *.
  unfold avg_expr, weighted_sum in *.
  rewrite (mul4_ok 2) by lia. rewrite (mul4_ok 3) by lia.
  rewrite (mul4_ok 4) by lia. rewrite (mul4_ok 5) by lia.
  rewrite add4_ok by lia. rewrite add4_ok by lia. rewrite add4_ok by lia.
  rewrite add4_ok by lia. reflexivity.
Qed.

Lemma change_row4_form rt ct v b b' : change_row4 rt ct v b = Some b' -> b' = change_row rt ct v b.
Proof. unfold change_row4. destruct in_int4; [congruence | discriminate]. Qed.

Lemma calc_count_row4_form b b' : calc_count_row4 b = Some b' -> b' = calc_count_row b.
Proof.
  unfold calc_count_row4. destruct (count_expr b) as [c|] eqn:E; [|discriminate].
  intros H; injection H as <-. rewrite (count_expr_sum b c E). reflexivity.
Qed.

Lemma calc_avg_row_form b b' : calc_avg_row b = Some b' -> b' = avg_row b.
Proof.
  unfold calc_avg_row. destruct (avg_expr b) as [w|] eqn:E; [|discriminate].
  destruct (rating_count b =? 0); [discriminate|].
  intros H; injection H as <-. rewrite (avg_expr_sum b w E). reflexivity.
Qed.

Lemma avg_expr_set_count b c : avg_expr (set_count b c) = avg_expr b.
Proof. destruct b; reflexivity. Qed.

Lemma int_param_range value v : int_param value = Some v -> in_int4 v = true.
Proof.
  destruct value as [q| |]; simpl; try discriminate.
  destruct (_ =? 0); simpl; [|discriminate].
  destruct (in_int4 _) eqn:E; [|discriminate]. congruence.
Qed.

Lemma in_int4_iff z : in_int4 z = true <-> int4_min <= z <= int4_max.
Proof. unfold in_int4. rewrite andb_true_iff, !Z.leb_le. tauto. Qed.

(** The transaction, statement by statement. *)
Lemma pipeline_steps isbn rt ct v s :
  pipeline isbn rt ct v s =
  match update_rows isbn (change_row4 rt ct v) s with
  | None => inl sql_error
  | Some (n, s1) =>
      if Nat.eqb n 0 then inl no_books
      else if existsb (fun x => x <? 0) (map (get_col rt) (filter (matches isbn) s1))
      then inl negative_number
      else match update_rows isbn calc_count_row4 s1 with
           | None => inl sql_error
           | Some (_, s2) =>
               match update_rows isbn calc_avg_row s2 with
               | None => inl sql_error
               | Some (_, s3) => inr (tt, s3)
               end
           end
  end.
Proof.
  unfold pipeline, bind, sql_update, sql_select_col, ret, throw.
  destruct (update_rows isbn (change_row4 rt ct v) s) as [[n s1]|]; [|reflexivity].
  destruct (Nat.eqb n 0); [reflexivity|].
  change (fun b => String.eqb (isbn13 b) isbn) with (matches isbn).
  destruct (existsb _ _); [reflexivity|].
  destruct (update_rows isbn calc_count_row4 s1) as [[m s2]|]; [|reflexivity].
  destruct (update_rows isbn calc_avg_row s2) as [[k s3]|]; reflexivity.
Qed.

(** Every successful run rewrites exactly the rows carrying the ISBN, each
    with the change and the recomputation. *)
Lemma update_rating_success_form s isbn rt ct v s' m :
  update_rating s isbn rt ct v = (s', status200 m) ->
  (exists b, In b s /\ isbn13 b = isbn) /\
  s' = map (fun b => if matches isbn b then recompute_row (change_row rt ct v b) else b) s.
Proof.
  unfold update_rating. rewrite pipeline_steps.
  destruct (update_rows isbn (change_row4 rt ct v) s) as [[n s1]|] eqn:H1; [|discriminate].
  destruct (Nat.eqb n 0) eqn:Hn; [discriminate|].
  destruct existsb; [discriminate|].
  destruct (update_rows isbn calc_count_row4 s1) as [[n2 s2]|] eqn:H2; [|discriminate].
  destruct (update_rows isbn calc_avg_row s2) as [[n3 s3]|] eqn:H3; [|discriminate].
  intros Heq; injection Heq as <- _.
  destruct (update_rows_map _ _ _ _ _ _ H1 (change_row4_form rt ct v)) as [En ->].
  destruct (update_rows_map _ _ _ _ _ _ H2 calc_count_row4_form) as [_ ->].
  destruct (update_rows_map _ _ _ _ _ _ H3 calc_avg_row_form) as [_ ->].
  split.
  - subst n. destruct (filter (matches isbn) s) as [|b l] eqn:Hf; [discriminate|].
    assert (Hb : In b (filter (matches isbn) s)) by (rewrite Hf; left; reflexivity).
    apply filter_In in Hb. exists b. split; [tauto|]. apply matches_true; tauto.
  - rewrite !map_map. apply map_ext. intros b.
    destruct (matches isbn b) eqn:Hm.
    + rewrite matches_change_row, Hm, matches_calc_count_row, matches_change_row, Hm.
      reflexivity.
    + rewrite Hm, Hm. reflexivity.
Qed.

Lemma derived_ok_recompute_row b : derived_ok (recompute_row b).
Proof. destruct b; split; reflexivity. Qed.

Lemma in_filter_matches isbn s b :
  In b s -> isbn13 b = isbn -> filter (matches isbn) s <> [].
Proof.
  intros Hin Hi Hnil.
  assert (H : In b (filter (matches isbn) s)) by (apply filter_In; split; [exact Hin | apply matches_true; exact Hi]).
  rewrite Hnil in H. exact H.
Qed.

Lemma length_nonzero {A} (l : list A) : l <> [] -> Nat.eqb (length l) 0 = false.
Proof. destruct l; [congruence | reflexivity]. Qed.

Lemma filter_none isbn s :
  (forall b, In b s -> isbn13 b <> isbn) -> filter (matches isbn) s = [].
Proof.
  intros H. induction s as [|b s IH]; simpl; [reflexivity|].
  destruct (matches isbn b) eqn:Hm.
  - exfalso. apply (H b); [left; reflexivity | apply matches_true; exact Hm].
  - apply IH. intros b' Hin. apply H. right. exact Hin.
Qed.

Lemma in_map_matched isbn g s b1 :
  (forall b, matches isbn (g b) = matches isbn b) ->
  In b1 (map (fun b => if matches isbn b then g b else b) s) -> matches isbn b1 = true ->
  exists b, In b s /\ matches isbn b = true /\ b1 = g b.
Proof.
  intros Hg Hin Hm. apply in_map_iff in Hin. destruct Hin as [b [Hb Hin]].
  destruct (matches isbn b) eqn:E.
  - exists b. auto.
  - subst b1. congruence.
Qed.

Lemma get_col_le_weighted rt b :
  buckets_nonneg b -> get_col rt b <= weighted_sum b.
Proof.
  intros H. pose proof (H R1) as H1; pose proof (H R2) as H2; pose proof (H R3) as H3;
  pose proof (H R4) as H4; pose proof (H R5) as H5. cbn [get_col] in *.
  unfold weighted_sum. destruct rt; cbn [get_col]; lia.
Qed.

Lemma bucket_sum_pos b :
  buckets_nonneg b -> 0 < weighted_sum b -> bucket_sum b <> 0.
Proof.
  intros H Hw. pose proof (H R1) as H1; pose proof (H R2) as H2; pose proof (H R3) as H3;
  pose proof (H R4) as H4; pose proof (H R5) as H5. cbn [get_col] in *.
  unfold weighted_sum, bucket_sum in *. lia.
Qed.

Lemma buckets_nonneg_calc_count_row b : buckets_nonneg b -> buckets_nonneg (calc_count_row b).
Proof. intros H rt. destruct b, rt; apply (H R1) || apply (H R2) || apply (H R3) || apply (H R4) || apply (H R5). Qed.

Lemma weighted_sum_calc_count_row b : weighted_sum (calc_count_row b) = weighted_sum b.
Proof. destruct b; reflexivity. Qed.

Lemma rating_count_calc_count_row b : rating_count (calc_count_row b) = bucket_sum b.
Proof. destruct b; reflexivity. Qed.

Lemma bucket_sum_cols b :
  bucket_sum b = get_col R1 b + get_col R2 b + get_col R3 b + get_col R4 b + get_col R5 b.
Proof. reflexivity. Qed.

(** Statement 1 on a store where it raises no error. *)
Lemma stmt1_ok isbn rt ct v s :
  (forall b, In b s -> isbn13 b = isbn -> in_int4 (apply_change ct (get_col rt b) v) = true) ->
  update_rows isbn (change_row4 rt ct v) s =
  Some (length (filter (matches isbn) s),
        map (fun b => if matches isbn b then change_row rt ct v b else b) s).
Proof.
  intros H. apply update_rows_ok. intros b Hin Hm.
  unfold change_row4. rewrite (H b Hin (proj1 (matches_true _ _) Hm)). reflexivity.
Qed.

(** Every successful run rewrites exactly the rows carrying the ISBN. *)
Lemma update_rating_no_match s isbn rt ct v :
  (forall b, In b s -> isbn13 b <> isbn) ->
  update_rating s isbn rt ct v = (s, status400 msg_no_book).
Proof.
  intros H. unfold update_rating. rewrite pipeline_steps.
  rewrite (stmt1_ok isbn rt ct v s) by (intros b Hin Hi; exfalso; exact (H b Hin Hi)).
  rewrite (filter_none isbn s H). reflexivity.
Qed.

(** The full run on a store where no statement raises an error. *)
Lemma update_rating_ok s isbn rt ct v :
  in_int4 v = true ->
  (exists b, In b s /\ isbn13 b = isbn) ->
  (forall b, In b s -> isbn13 b = isbn ->
     buckets_nonneg (change_row rt ct v b) /\
     0 < weighted_sum (change_row rt ct v b) <= int4_max) ->
  update_rating s isbn rt ct v =
  (map (fun b => if matches isbn b then recompute_row (change_row rt ct v b) else b) s,
   status200 msg_ok).
Proof.
  intros Hv [b0 [Hin0 Hi0]] H.
  assert (Hcol : forall b, In b s -> isbn13 b = isbn ->
                 in_int4 (apply_change ct (get_col rt b) v) = true).
  { intros b Hin Hi. destruct (H b Hin Hi) as [Hn Hw].
    apply in_int4_iff. rewrite <- get_col_change_row.
    pose proof (get_col_le_weighted rt _ Hn). pose proof (Hn rt).
    unfold int4_min. lia. }
  unfold update_rating. rewrite pipeline_steps, (stmt1_ok _ _ _ _ _ Hcol).
  rewrite (length_nonzero _ (in_filter_matches _ _ _ Hin0 Hi0)).
  rewrite filter_map_matches by (intros; apply isbn13_change_row).
  replace (existsb _ _) with false.
  2:{ symmetry. apply not_true_iff_false. intros He.
      apply existsb_exists in He. destruct He as [x [Hx Hlt]]. apply Z.ltb_lt in Hlt.
      apply in_map_iff in Hx. destruct Hx as [c [<- Hc]].
      apply in_map_iff in Hc. destruct Hc as [b1 [<- Hb1]].
      apply filter_In in Hb1. destruct Hb1 as [Hb1 Hm].
      pose proof (proj1 (H b1 Hb1 (proj1 (matches_true _ _) Hm)) rt). lia. }
  rewrite (update_rows_ok isbn calc_count_row4 calc_count_row).
  2:{ intros b1 Hb1 Hm.
      destruct (in_map_matched isbn (change_row rt ct v) s b1 (matches_change_row isbn rt ct v) Hb1 Hm)
        as [b [Hb [Hmb ->]]].
      destruct (H b Hb (proj1 (matches_true _ _) Hmb)) as [Hn Hw].
      unfold calc_count_row4. rewrite count_expr_ok by (auto; lia). reflexivity. }
  rewrite (update_rows_ok isbn calc_avg_row avg_row).
  2:{ intros b2 Hb2 Hm2.
      destruct (in_map_matched isbn calc_count_row _ b2 (matches_calc_count_row isbn) Hb2 Hm2)
        as [b1 [Hb1 [Hm1 ->]]].
      destruct (in_map_matched isbn (change_row rt ct v) s b1 (matches_change_row isbn rt ct v) Hb1 Hm1)
        as [b [Hb [Hmb ->]]].
      destruct (H b Hb (proj1 (matches_true _ _) Hmb)) as [Hn Hw].
      unfold calc_avg_row, calc_count_row. rewrite avg_expr_set_count, avg_expr_ok by (auto; lia).
      replace (rating_count (set_count (change_row rt ct v b) (bucket_sum (change_row rt ct v b))) =? 0)
        with false.
      2:{ symmetry. apply Z.eqb_neq. fold (calc_count_row (change_row rt ct v b)).
          rewrite rating_count_calc_count_row. apply bucket_sum_pos; [exact Hn | lia]. }
      unfold avg_row. destruct (change_row rt ct v b); reflexivity. }
  f_equal. rewrite !map_map. apply map_ext. intros b.
  destruct (matches isbn b) eqn:Hm.
  - rewrite matches_change_row, Hm, matches_calc_count_row, matches_change_row, Hm.
    reflexivity.
  - rewrite Hm, Hm. reflexivity.
Qed.

(** C1: after a successful rating update every row carrying the ISBN has
    [rating_count] equal to the sum of its five buckets and [rating_avg]
    equal to the weighted sum over that total rounded to two decimals; on
    the row with buckets (10,20,30,40,50), increasing bucket 3 by 1 gives
    buckets (10,20,31,40,50), total 151 and average
    round((10+40+93+160+250)/151, 2). *)
Theorem update_rating_derived_fields :
  (forall s isbn rt ct v s' m,
     update_rating s isbn rt ct v = (s', status200 m) ->
     forall b, In b s' -> isbn13 b = isbn -> derived_ok b) /\
  update_rating [ex_row] ex_isbn R3 increaseby 1 = ([ex_row_after], status200 msg_ok).
Proof.
  split; [|vm_compute; reflexivity].
  intros s isbn rt ct v s' m Hrun b Hin Hi.
  destruct (update_rating_success_form _ _ _ _ _ _ _ Hrun) as [_ ->].
  apply in_map_iff in Hin. destruct Hin as [b0 [Hb0 Hin0]].
  destruct (matches isbn b0) eqn:Hm.
  - subst b. apply derived_ok_recompute_row.
  - subst b. apply matches_true in Hi. congruence.
Qed.

Lemma update_rating_derived_fields_witness : derived_ok ex_row_after.
Proof.
  apply (proj1 update_rating_derived_fields [ex_row] ex_isbn R3 increaseby 1 [ex_row_after] msg_ok).
  - vm_compute. reflexivity.
  - left. reflexivity.
  - reflexivity.
Defined.

(** C2 (refuted as stated): the value [-0.5] for [setto] and the value
    [3000000000] for [decreaseby] would both make bucket 3 of [ex_row]
    negative, but neither is an [integer]: statement 1 fails on the bound
    parameter, the table is restored and the caller gets the generic
    storage-failure message, not the negative-result one. *)
Lemma update_rating_fraction_generic_cex :
  (Qlt (-1 # 2) 0 /\
   update_route [ex_row] ex_isbn R3 setto (Js.jfin (-1 # 2)) = ([ex_row], status400 msg_server)) /\
  (rating_3_star ex_row - 3000000000 < 0 /\
   update_route [ex_row] ex_isbn R3 decreaseby (Js.jfin (inject_Z 3000000000))
   = ([ex_row], status400 msg_server)).
Proof. vm_compute. repeat split; reflexivity. Qed.

(** C2 (as amended): for an [integer] value in range, on a store whose
    targeted buckets are non-negative [integer]s, a change that would make
    the targeted bucket of a row carrying the ISBN negative aborts the
    transaction: the table is returned exactly as it was and the caller
    gets the negative-result message.  A value that is not an [integer] in
    range (fractional, not finite or too large) is refused by statement 1:
    the table is unchanged and the caller gets the generic message. *)
Theorem update_rating_negative_rollback s isbn rt ct value :
  (forall v, int_param value = Some v ->
     (forall b, In b s -> isbn13 b = isbn -> 0 <= get_col rt b <= int4_max) ->
     (exists b, In b s /\ isbn13 b = isbn /\ apply_change ct (get_col rt b) v < 0) ->
     update_route s isbn rt ct value = (s, status400 msg_negative)) /\
  (int_param value = None -> update_route s isbn rt ct value = (s, status400 msg_server)).
Proof.
  split; [|intros H; unfold update_route; rewrite H; reflexivity].
  intros v Hv Hrange [b [Hin [Hi Hneg]]].
  unfold update_route. rewrite Hv.
  pose proof (proj1 (in_int4_iff v) (int_param_range _ _ Hv)) as Hvr.
  assert (Hcol : forall b', In b' s -> isbn13 b' = isbn ->
                 in_int4 (apply_change ct (get_col rt b') v) = true).
  { intros b' Hin' Hi'. apply in_int4_iff.
    pose proof (Hrange b Hin Hi). pose proof (Hrange b' Hin' Hi').
    unfold int4_min, int4_max in *. destruct ct; simpl in *; lia. }
  unfold update_rating. rewrite pipeline_steps, (stmt1_ok _ _ _ _ _ Hcol).
  rewrite (length_nonzero _ (in_filter_matches _ _ _ Hin Hi)).
  rewrite filter_map_matches by (intros; apply isbn13_change_row).
  replace (existsb _ _) with true; [reflexivity|].
  symmetry. apply existsb_exists. exists (apply_change ct (get_col rt b) v).
  split; [|apply Z.ltb_lt; exact Hneg].
  rewrite <- get_col_change_row. apply in_map. apply in_map.
  apply filter_In. split; [exact Hin | apply matches_true; exact Hi].
Qed.

Lemma update_rating_negative_rollback_witness :
  update_route [ex_row] ex_isbn R3 decreaseby (Js.jfin (inject_Z 31)) = ([ex_row], status400 msg_negative).
Proof.
  apply (proj1 (update_rating_negative_rollback [ex_row] ex_isbn R3 decreaseby (Js.jfin (inject_Z 31))) 31).
  - vm_compute. reflexivity.
  - intros b [<- | []] _. vm_compute. split; discriminate.
  - exists ex_row. split; [left; reflexivity|]. split; [reflexivity|]. vm_compute. reflexivity.
Defined.

(** C3 (refuted as stated): with two rows sharing the ISBN the update is
    not aborted; both rows are rewritten and the caller gets 200. *)
Lemma update_rating_duplicate_isbn_cex :
  update_route ex_dup_store ex_isbn R3 increaseby (Js.jfin (inject_Z 1))
  = ([ex_row_after; ex_row_after], status200 msg_ok)
  /\ [ex_row_after; ex_row_after] <> ex_dup_store.
Proof. split; [vm_compute; reflexivity | discriminate]. Qed.

(** C3 (as amended): the pipeline only checks that at least one row
    matched.  For an [integer] value in range: with no row carrying the
    ISBN it aborts with the unknown-identifier message and the table is
    unchanged; with one or more rows carrying it, when no statement raises
    an SQL error (the changed buckets are non-negative and the weighted sum
    is positive and in range), no error is reported and every one of those
    rows is rewritten with the change and the recomputation; and any
    successful run has that form. *)
Theorem update_rating_match_check s isbn rt ct value :
  (forall v, int_param value = Some v ->
     (forall b, In b s -> isbn13 b <> isbn) ->
     update_route s isbn rt ct value = (s, status400 msg_no_book)) /\
  (forall v, int_param value = Some v ->
     (exists b, In b s /\ isbn13 b = isbn) ->
     (forall b, In b s -> isbn13 b = isbn ->
        buckets_nonneg (change_row rt ct v b) /\
        0 < weighted_sum (change_row rt ct v b) <= int4_max) ->
     update_route s isbn rt ct value =
     (map (fun b => if matches isbn b then recompute_row (change_row rt ct v b) else b) s,
      status200 msg_ok)) /\
  (forall s' m, update_route s isbn rt ct value = (s', status200 m) ->
     exists v, int_param value = Some v /\
     s' = map (fun b => if matches isbn b then recompute_row (change_row rt ct v b) else b) s).
Proof.
  split; [|split].
  - intros v Hv H. unfold update_route. rewrite Hv. apply update_rating_no_match. exact H.
  - intros v Hv Hex H. unfold update_route. rewrite Hv.
    apply update_rating_ok; [exact (int_param_range _ _ Hv) | exact Hex | exact H].
  - intros s' m. unfold update_route. destruct (int_param value) as [v|]; [|discriminate].
    intros H. exists v. split; [reflexivity|].
    exact (proj2 (update_rating_success_form _ _ _ _ _ _ _ H)).
Qed.

Lemma update_rating_match_check_witness :
  update_route ex_dup_store ex_isbn R3 increaseby (Js.jfin (inject_Z 1))
  = ([ex_row_after; ex_row_after], status200 msg_ok).
Proof.
  rewrite (proj1 (proj2 (update_rating_match_check ex_dup_store ex_isbn R3 increaseby (Js.jfin (inject_Z 1)))) 1).
  - vm_compute. reflexivity.
  - vm_compute. reflexivity.
  - exists ex_row. split; [left; reflexivity | reflexivity].
  - intros b [<- | [<- | []]] _; (split; [intros []; vm_compute; discriminate | vm_compute; split; [reflexivity | discriminate]]).
Defined.

(** C10: when the change leaves all five buckets of a matched row at zero
    (and no matched bucket goes negative), [calcAvg] divides by a zero
    [rating_count]; the update is rolled back and the caller gets the
    generic storage-failure message. *)
Theorem update_rating_zero_total s isbn rt ct v :
  (exists b, In b s /\ isbn13 b = isbn /\ forall rt', get_col rt' (change_row rt ct v b) = 0) ->
  (forall b, In b s -> isbn13 b = isbn -> 0 <= apply_change ct (get_col rt b) v) ->
  update_rating s isbn rt ct v = (s, status400 msg_server).
Proof.
  intros [b [Hin [Hi Hzero]]] Hpos.
  unfold update_rating. rewrite pipeline_steps.
  destruct (update_rows isbn (change_row4 rt ct v) s) as [[n s1]|] eqn:H1; [|reflexivity].
  destruct (update_rows_map _ _ _ _ _ _ H1 (change_row4_form rt ct v)) as [-> ->].
  rewrite (length_nonzero _ (in_filter_matches _ _ _ Hin Hi)).
  rewrite filter_map_matches by (intros; apply isbn13_change_row).
  destruct (existsb _ _) eqn:He.
  - exfalso. apply existsb_exists in He. destruct He as [x [Hx Hlt]].
    apply Z.ltb_lt in Hlt.
    apply in_map_iff in Hx. destruct Hx as [c [<- Hc]].
    apply in_map_iff in Hc. destruct Hc as [b1 [<- Hb1]].
    apply filter_In in Hb1. destruct Hb1 as [Hb1 Hm].
    rewrite get_col_change_row in Hlt.
    specialize (Hpos b1 Hb1 (proj1 (matches_true _ _) Hm)). lia.
  - destruct (update_rows isbn calc_count_row4 _) as [[n2 s2]|] eqn:H2; [|reflexivity].
    destruct (update_rows_map _ _ _ _ _ _ H2 calc_count_row4_form) as [_ ->].
    rewrite (update_rows_none isbn calc_avg_row _ (calc_count_row (change_row rt ct v b))).
    + reflexivity.
    + apply in_map_iff. exists (change_row rt ct v b).
      rewrite matches_change_row, (proj2 (matches_true _ _) Hi). split; [reflexivity|].
      apply in_map_iff. exists b. rewrite (proj2 (matches_true _ _) Hi). auto.
    + rewrite isbn13_calc_count_row, isbn13_change_row. exact Hi.
    + unfold calc_avg_row, calc_count_row. rewrite avg_expr_set_count.
      pose proof (Hzero R1) as Z1; pose proof (Hzero R2) as Z2; pose proof (Hzero R3) as Z3;
      pose proof (Hzero R4) as Z4; pose proof (Hzero R5) as Z5.
      destruct (change_row rt ct v b) as [i a1 a2 a3 a4 a5 c q].
      cbn [get_col rating_1_star rating_2_star rating_3_star rating_4_star rating_5_star] in *.
      subst. reflexivity.
Qed.

Lemma update_rating_zero_total_witness :
  update_rating [ex_zero_row] ex_isbn R3 setto 0 = ([ex_zero_row], status400 msg_server).
Proof.
  apply update_rating_zero_total.
  - exists ex_zero_row. split; [left; reflexivity|]. split; [reflexivity|].
    intros []; reflexivity.
  - intros b [<- | []] _. vm_compute. discriminate.
Defined.

End RatingUpdateFacts.

Module MigrationFacts.
Import Migration.

(** From a missing [schema_version] relation, with every script succeeding,
    the four scripts run in ascending order and the table ends at [Latest]. *)
Lemma migrate_from_scratch env env_catch :
  (forall n, In n [1; 2; 3; 4] -> env_catch n = None) ->
  migrate env env_catch None = ([1; 2; 3; 4], Some [Latest], resolved).
Proof.
  intros H. unfold migrate, read_version, migrate_catch. simpl.
  unfold migrateFromVersion, scripts_from. simpl.
  rewrite !H by (simpl; tauto). reflexivity.
Qed.

(** At [Latest] no script is run. *)
Lemma migrate_at_latest env env_catch rest :
  migrate env env_catch (Some (Latest :: rest)) = ([], Some (Latest :: rest), resolved).
Proof. reflexivity. Qed.

Lemma migrate_above_latest env env_catch v rest :
  Latest < v ->
  migrate env env_catch (Some (v :: rest)) = ([], Some (v :: rest), logged (unrecognized v)).
Proof.
  intros H. unfold migrate, read_version, migrateFromVersion.
  replace ((0 <=? v) && (v <=? Latest)) with false.
  - reflexivity.
  - symmetry. apply andb_false_iff. right. apply Z.leb_gt. exact H.
Qed.

(** C4 (code bug): with version 5 installed, above the highest known
    script, [migrateFromVersion] throws, but the [catch] of [migrate] only
    logs the error: no script runs and the returned promise resolves, so
    startup is not aborted. *)
Theorem migrate_unknown_version_not_fatal env env_catch :
  migrate env env_catch (Some [5]) = ([], Some [5], logged (unrecognized 5)).
Proof. apply migrate_above_latest. reflexivity. Qed.

End MigrationFacts.

Module SearchFacts.
Import Js KeywordCheck SearchRoutes.
Local Open Scope string_scope.

Lemma list_ascii_app s t :
  list_ascii_of_string (s ++ t) = (list_ascii_of_string s ++ list_ascii_of_string t)%list.
Proof. induction s; simpl; congruence. Qed.

Lemma is_prefix_app p l : is_prefix p (p ++ l)%list = true.
Proof. induction p; simpl; [reflexivity | rewrite Ascii.eqb_refl; exact IHp]. Qed.

Lemma occurs_in_prefix t l : is_prefix t l = true -> occurs_in t l = true.
Proof. destruct l; simpl; intros ->; reflexivity. Qed.

Lemma occurs_in_app t a l : occurs_in t l = true -> occurs_in t (a ++ l)%list = true.
Proof. induction a; simpl; auto. intros H; rewrite (IHa H); apply orb_true_r. Qed.

Lemma contains_middle pre t post : contains (pre ++ t ++ post) t = true.
Proof.
  unfold contains; rewrite !list_ascii_app.
  apply occurs_in_app, occurs_in_prefix, is_prefix_app.
Qed.

Lemma title_text_split t :
  title_text t =
  ((getBooksAndAuthorsQuery6 ++ " " ++ nl ++ "            WHERE title LIKE '") ++ t
   ++ "' " ++ nl ++ "            OR title LIKE '" ++ capitalize t ++ "' " ++ nl
   ++ "            OR DIFFERENCE(title, '" ++ t ++ "') > 2 " ++ nl
   ++ "            ORDER BY SIMILARITY(title, '" ++ t ++ "') DESC").
Proof. reflexivity. Qed.

Lemma blank_nonempty s : blank s = false -> String.eqb s "" = false.
Proof. destruct s; [discriminate | reflexivity]. Qed.

Lemma truthy_false o : truthy o = false -> o = None \/ o = Some "".
Proof.
  destruct o as [s|]; simpl; [|auto].
  destruct (String.eqb s "") eqn:E; simpl; [|discriminate].
  apply String.eqb_eq in E; subst; auto.
Qed.



(** C5: [GET /search/title] (part_006) splices the user's title into the
    statement text and binds no parameter: every title that passes its check
    reaches the store inside the text, whatever quotes it holds. *)
Theorem title_route_interpolates t :
  blank t = false ->
  title_route (Some t) = store_query (title_text t) [] /\ contains (title_text t) t = true.
Proof.
  intros H. split.
  - unfold title_route, truthy. rewrite (blank_nonempty t H), H. reflexivity.
  - rewrite title_text_split. apply contains_middle.
Qed.

Lemma title_route_interpolates_witness :
  title_route (Some injected_title) = store_query (title_text injected_title) []
  /\ contains (title_text injected_title) injected_title = true.
Proof. apply (title_route_interpolates injected_title). reflexivity. Defined.

(** C6: a non-keyword [GET /search] request with at least one key but no
    truthy filter (such as [?title=]) passes both checks, and the statement
    [... WHERE], with no predicate, is sent to the store with no values. *)
Theorem search_no_filter_reaches_store r :
  Nat.ltb 0 (key_count r) = true ->
  truthy (q r) = false -> truthy (title r) = false -> truthy (isbn r) = false ->
  truthy (author r) = false -> truthy (min r) = false -> truthy (max r) = false ->
  search_route r = store_query (getBooksAndAuthorsQuery ++ " WHERE") [].
Proof.
  destruct r as [q0 t0 i0 a0 mn mx [|k ks]]; simpl;
  intros H0 Hq Ht Hi Ha Hmn Hmx;
  apply truthy_false in Hq, Ht, Hi, Ha, Hmn, Hmx;
  destruct Hq as [->| ->]; destruct Ht as [->| ->]; destruct Hi as [->| ->];
  destruct Ha as [->| ->]; destruct Hmn as [->| ->]; destruct Hmx as [->| ->];
  first [discriminate H0 | vm_compute; reflexivity].
Qed.

Lemma search_no_filter_reaches_store_witness :
  search_route (only_title "") = store_query (getBooksAndAuthorsQuery ++ " WHERE") [].
Proof.
  apply (search_no_filter_reaches_store (only_title ""));
  vm_compute; reflexivity.
Defined.



(** C9: on [GET /search] a truthy keyword [q] sends the bare statement
    [... WHERE] with no values, whatever the other filters: the keyword is
    not bound, nothing is ranked, and the ranked keyword registration is never
    reached. Its format check would also accept [abc] newline [;], which holds
    a character outside the allowed ones. *)
Theorem search_keyword_path r :
  truthy (q r) = true ->
  search_route r = store_query (getBooksAndAuthorsQuery ++ " WHERE") []
  /\ checkQueryFormat bad_keyword = true /\ allowed_keyword bad_keyword = false.
Proof.
  intros Hq. split; [|split; vm_compute; reflexivity].
  unfold search_route, handler1, handler2, handler3.
  destruct (q r) as [k|] eqn:E; [|discriminate].
  unfold key_count; rewrite E. simpl Nat.ltb. cbv iota beta.
  rewrite Hq. reflexivity.
Qed.

Lemma search_keyword_path_witness :
  search_route (mkQuery (Some bad_keyword) (Some "dune") None None (Some "4") None []) =
  store_query (getBooksAndAuthorsQuery ++ " WHERE") []
  /\ checkQueryFormat bad_keyword = true /\ allowed_keyword bad_keyword = false.
Proof. apply search_keyword_path. reflexivity. Defined.

End SearchFacts.

Module JsFacts.
Import Js.

Lemma qlt_false x y : qlt x y = false -> (y <= x)%Q.
Proof.
  unfold qlt. destruct (Qle_bool y x) eqn:E; [|discriminate].
  intros _; apply Qle_bool_iff; exact E.
Qed.

Lemma qlt_true x y : qlt x y = true -> (x < y)%Q.
Proof.
  unfold qlt. destruct (Qle_bool y x) eqn:E; [discriminate|]. intros _.
  apply Qnot_le_lt. intros H. apply Qle_bool_iff in H. congruence.
Qed.









End JsFacts.

Module PaginationFacts.
Import Js Pagination SearchRoutes Middleware BookRoutes JsFacts.
Local Open Scope string_scope.












End PaginationFacts.

Module MiddlewareFacts.
Import Js Middleware SearchRoutes BookRoutes.
Local Open Scope string_scope.

(** [validSort] leaves a [sort] whose [String] form is [desc] when [String(req.query.sort)] is [desc], and [asc] otherwise: for a string, an array, an object or no value. *)
Lemma validSort_str o :
  to_str (validSort o) = (if String.eqb (str_o o) "desc" then "desc" else "asc").
Proof.
  destruct o as [v|]; [|reflexivity].
  unfold validSort, str_o, loose_neq.
  destruct (String.eqb_spec (to_str v) "asc") as [Ha|Ha]; simpl.
  - rewrite Ha. reflexivity.
  - destruct (String.eqb_spec (to_str v) "desc") as [Hd|Hd]; simpl; [exact Hd | reflexivity].
Qed.

(** [validOrderby] leaves an [orderby] whose [String] form is [author] or [year] when [String(req.query.orderby)] is that word, and [title] otherwise. *)
Lemma validOrderby_str o :
  to_str (validOrderby o) =
  (if String.eqb (str_o o) "author" then "author"
   else if String.eqb (str_o o) "year" then "year" else "title").
Proof.
  destruct o as [v|]; [|reflexivity].
  unfold validOrderby, str_o, loose_neq.
  destruct (String.eqb_spec (to_str v) "title") as [Ht|Ht]; simpl.
  - rewrite Ht. reflexivity.
  - destruct (String.eqb_spec (to_str v) "author") as [Ha|Ha]; simpl; [exact Ha|].
    destruct (String.eqb_spec (to_str v) "year") as [Hy|Hy]; simpl; [exact Hy | reflexivity].
Qed.

(** [GET /all/title] (open/books.ts) only ever sends one of two statement texts, [ORDER BY title asc] or [ORDER BY title desc], whatever [sort] the request carries; its values are the page size and page that [validOffset] and [validPage] settled on. *)
Lemma all_title_route_form sort offset page rowCount text vals :
  all_title_route sort offset page rowCount = store_query text vals ->
  (text = all_title_text "asc" \/ text = all_title_text "desc") /\
  exists size p, Pagination.paginate offset page rowCount = Some (size, p) /\
    vals = map pnum (Pagination.all_title_values size p).
Proof.
  unfold all_title_route, Pagination.paginate.
  destruct (Pagination.validOffset offset) as [size|]; [|discriminate].
  destruct (Pagination.validPage page size rowCount) as [p|]; [|discriminate].
  intros H; injection H as <- <-. split.
  - rewrite validSort_str. destruct (String.eqb (str_o sort) "desc"); auto.
  - exists size, p. auto.
Qed.

(** [GET /all] (part_004) sends a fixed statement text; the order key and direction travel as its first bound value, one of six strings. *)
Lemma all_route_form orderby sort offset page rowCount text vals :
  all_route orderby sort offset page rowCount = store_query text vals ->
  text = all_text /\ exists v rest, vals = pstr v :: rest /\ In v order_values.
Proof.
  unfold all_route.
  destruct (Pagination.validOffset offset) as [size|]; [|discriminate].
  destruct (Pagination.validPage page size rowCount) as [p|]; [|discriminate].
  intros H; injection H as <- <-. split; [reflexivity|].
  eexists _, _; split; [reflexivity|].
  rewrite validOrderby_str, validSort_str.
  destruct (String.eqb (str_o orderby) "author"), (String.eqb (str_o orderby) "year"),
    (String.eqb (str_o sort) "desc"); simpl; tauto.
Qed.

Lemma all_title_route_form_witness :
  all_title_route (Some (qarr [qstr "desc"])) None None 40 =
    store_query (all_title_text "desc") [pnum (jfin 0); pnum (jfin 15)] /\
  ((all_title_text "desc" = all_title_text "asc" \/ all_title_text "desc" = all_title_text "desc") /\
   exists size p, Pagination.paginate None None 40 = Some (size, p) /\
     [pnum (jfin 0); pnum (jfin 15)] =
       map pnum (Pagination.all_title_values size p)).
Proof.
  split; [vm_compute; reflexivity|].
  apply (all_title_route_form (Some (qarr [qstr "desc"])) None None 40). vm_compute. reflexivity.
Defined.

Lemma all_route_form_witness :
  all_route (Some (qstr "year")) (Some qobj) None None 40 =
    store_query all_text [pstr "publication_year, title asc"; pnum (jfin 0); pnum (jfin 15)] /\
  (all_text = all_text /\ exists v rest,
     [pstr "publication_year, title asc"; pnum (jfin 0); pnum (jfin 15)] = pstr v :: rest /\
     In v order_values).
Proof.
  split; [vm_compute; reflexivity|].
  apply (all_route_form (Some (qstr "year")) (Some qobj) None None 40). vm_compute. reflexivity.
Defined.

End MiddlewareFacts.

Module UpdateFacts.
Import Js Middleware SearchRoutes BookRoutes.
Local Open Scope string_scope.

Lemma first_some_none3 a b c : first_some [a; b; c] = None -> a = None /\ b = None /\ c = None.
Proof. destruct a, b, c; simpl; intuition discriminate. Qed.

Lemma validRatingType_none o :
  validRatingType o = None -> In (str_o o) rating_columns.
Proof.
  unfold validRatingType.
  destruct (existsb (String.eqb (str_o o)) rating_columns) eqn:E.
  - intros _. apply existsb_exists in E. destruct E as [x [Hx Hq]].
    apply String.eqb_eq in Hq. subst. exact Hx.
  - rewrite orb_true_r. discriminate.
Qed.

Lemma string_app_assoc a b c : (a ++ b) ++ c = a ++ b ++ c.
Proof. induction a as [|x a IH]; simpl; [reflexivity | rewrite IH; reflexivity]. Qed.

(** A request that passes [validRatingType], [validRatingChangeType] and [validRatingValue] makes [PUT /books/update] build one of three [UPDATE] statements on one of the five rating columns, and a fixed [SELECT] on that column. *)
Lemma update_text_forms rt ct v :
  update_checks rt ct v = None ->
  exists c, In c rating_columns /\ In (update_text rt ct) (update_forms c) /\
    select_text rt = "SELECT " ++ c ++ " FROM books WHERE isbn13 = $1;".
Proof.
  unfold update_checks. intros H. apply first_some_none3 in H. destruct H as [H1 _].
  apply validRatingType_none in H1.
  exists (str_o rt). split; [exact H1|]. split; [|reflexivity].
  unfold update_text, update_forms.
  destruct (strict_eq ct "increaseby");
    [|destruct (strict_eq ct "decreaseby")]; rewrite ?string_app_assoc; simpl; auto.
Qed.

(** A [changetype] given as an array whose [String] form is [increaseby] or [decreaseby] passes [validRatingChangeType], but the strict comparisons of the handler make it build the set-to statement [SET col = $1]. *)
Lemma update_array_changetype rt l :
  to_str (qarr l) = "increaseby" \/ to_str (qarr l) = "decreaseby" ->
  validRatingChangeType (Some (qarr l)) = None /\
  update_text rt (Some (qarr l)) = "UPDATE books SET " ++ str_o rt ++ " = $1 WHERE isbn13 = $2;".
Proof.
  intros H. split; [|reflexivity].
  unfold validRatingChangeType. change (str_o (Some (qarr l))) with (to_str (qarr l)).
  destruct H as [H|H]; rewrite H; reflexivity.
Qed.

(** After the checks of [PUT /books/update], the bound [$1] is [NaN] only when no [value] is given; otherwise it is what [Number(value)] gives and not [NaN] (a finite number or an infinity, as for [value=1e400]); an empty [value] gives 0. *)
Lemma update_value_bound rt ct v :
  update_checks rt ct v = None ->
  ((v = None /\ update_value v = pnum jnan) \/
   (exists x, update_value v = pnum x /\ x = number_q v /\ is_nan x = false)) /\
  update_value (Some (qstr "")) = pnum (jfin 0).
Proof.
  intros H. split; [|reflexivity].
  unfold update_checks in H. apply first_some_none3 in H. destruct H as [_ [_ H3]].
  unfold validRatingValue, update_value in *.
  destruct v as [q|]; [right|left; auto].
  exists (number_q (Some q)). split; [reflexivity|]. split; [reflexivity|].
  destruct (is_nan (number_q (Some q))) eqn:E; [|reflexivity].
  rewrite andb_true_r in H3.
  destruct q as [s| |]; simpl in H3; try discriminate.
  destruct (String.eqb_spec s "") as [->|]; simpl in H3; [|discriminate].
  vm_compute in E. discriminate E.
Qed.

Section MinMax.
Variable isNP : option qval -> bool.
Hypothesis isNP_number : forall o, isNP o = true -> is_nan (number_q o) = false.

Lemma number_default o d :
  is_nan (number_q (Some (qstr d))) = false ->
  is_nan (number_q (if isNP o then o else Some (qstr d))) = false.
Proof. intros Hd. destruct (isNP o) eqn:E; [apply isNP_number; exact E | exact Hd]. Qed.

(** [clamp] takes any number that is not [NaN], infinities included, into [[1, 5]]. *)
Lemma clamp_num_range o : is_nan (number_q o) = false ->
  exists a, clamp_num (number_q o) 5 1 = jfin a /\ (1 <= a <= 5)%Q.
Proof.
  destruct (number_q o) as [q|[|]|]; intros Hn; try discriminate;
    unfold clamp_num, js_le; simpl.
  - destruct (qlt 1 q) eqn:E1; simpl.
    + destruct (qlt q 5) eqn:E2; simpl.
      * apply JsFacts.qlt_true in E1, E2. exists q. split; [reflexivity|]. split; apply Qlt_le_weak; assumption.
      * exists 5%Q. split; [reflexivity|]. split; discriminate.
    + exists 1%Q. split; [reflexivity|]. split; discriminate.
  - exists 1%Q. split; [reflexivity|]. split; discriminate.
  - exists 5%Q. split; [reflexivity|]. split; discriminate.
Qed.

(** Whenever [validMinMax] calls [next()] after clamping, both bounds are finite numbers with [1 <= min <= max <= 5], for any [isNumberProvided] that accepts only values [Number] does not read as [NaN]. *)
Lemma validMinMax_clamped min max mn mx :
  In (mm_next_with mn mx) (validMinMax isNP min max) ->
  exists a b, mn = jfin a /\ mx = jfin b /\ (1 <= a)%Q /\ (a <= b)%Q /\ (b <= 5)%Q.
Proof.
  assert (Hfin : forall m1 m2 ev,
    is_nan (number_q m1) = false -> is_nan (number_q m2) = false ->
    In (mm_next_with mn mx)
      (ev ++ [if num_gt (clamp_num (number_q m1) 5 1) (clamp_num (number_q m2) 5 1)
              then mm_400
              else mm_next_with (clamp_num (number_q m1) 5 1) (clamp_num (number_q m2) 5 1)]) ->
    (forall e, In e ev -> e = mm_next) ->
    exists a b, mn = jfin a /\ mx = jfin b /\ (1 <= a)%Q /\ (a <= b)%Q /\ (b <= 5)%Q).
  { intros m1 m2 ev H1 H2 Hin Hev.
    destruct (clamp_num_range m1 H1) as [a [Ha Ra]].
    destruct (clamp_num_range m2 H2) as [b [Hb Rb]].
    rewrite Ha, Hb in Hin. apply in_app_or in Hin. destruct Hin as [Hin|Hin].
    - apply Hev in Hin. discriminate.
    - destruct (num_gt (jfin a) (jfin b)) eqn:G; simpl in Hin;
        destruct Hin as [Hin|[]]; [discriminate|].
      injection Hin as <- <-. exists a, b. repeat split; try apply Ra; try apply Rb.
      apply JsFacts.qlt_false. exact G. }
  unfold validMinMax.
  destruct (truthy_q min || truthy_q max) eqn:T.
  - intros Hin.
    assert (N1 : is_nan (number_q (if isNP min then min else Some (qstr "1"))) = false)
      by (apply number_default; vm_compute; reflexivity).
    assert (N2 : is_nan (number_q (if isNP max then max else Some (qstr "5"))) = false)
      by (apply number_default; vm_compute; reflexivity).
    destruct (_ || _ || _); [|destruct Hin].
    eapply Hfin; [exact N1 | exact N2 | exact Hin | intros e []].
  - apply orb_false_iff in T. destruct T as [T1 T2]. rewrite T1, T2. simpl.
    destruct (isNP min) eqn:P1; [|intros [H|[]]; discriminate].
    destruct (isNP max) eqn:P2; [|intros [H|[]]; discriminate].
    intros [Hin|Hin]; [discriminate|].
    apply (Hfin min max []); [apply isNP_number; exact P1 | apply isNP_number; exact P2 | exact Hin |].
    intros e [].
Qed.

End MinMax.



Lemma update_text_forms_witness :
  update_checks ex_rt (Some (qstr "increaseby")) (Some (qstr "3")) = None /\
  exists c, In c rating_columns /\
    In (update_text ex_rt (Some (qstr "increaseby"))) (update_forms c) /\
    select_text ex_rt = "SELECT " ++ c ++ " FROM books WHERE isbn13 = $1;".
Proof.
  split; [vm_compute; reflexivity|].
  apply (update_text_forms ex_rt (Some (qstr "increaseby")) (Some (qstr "3"))).
  vm_compute. reflexivity.
Defined.

Lemma update_array_changetype_witness :
  (to_str (qarr [qstr "increaseby"]) = "increaseby" \/
   to_str (qarr [qstr "increaseby"]) = "decreaseby") /\
  validRatingChangeType (Some (qarr [qstr "increaseby"])) = None /\
  update_text ex_rt (Some (qarr [qstr "increaseby"])) =
    "UPDATE books SET " ++ str_o ex_rt ++ " = $1 WHERE isbn13 = $2;".
Proof.
  split; [left; vm_compute; reflexivity|].
  apply (update_array_changetype ex_rt [qstr "increaseby"]). left. vm_compute. reflexivity.
Defined.

Lemma update_value_bound_witness :
  update_checks ex_rt (Some (qstr "setto")) (Some (qstr "1e400")) = None /\
  (((Some (qstr "1e400") = None /\ update_value (Some (qstr "1e400")) = pnum jnan) \/
    (exists x, update_value (Some (qstr "1e400")) = pnum x /\
       x = number_q (Some (qstr "1e400")) /\ is_nan x = false)) /\
   update_value (Some (qstr "")) = pnum (jfin 0)).
Proof.
  split; [vm_compute; reflexivity|].
  apply (update_value_bound ex_rt (Some (qstr "setto")) (Some (qstr "1e400"))). vm_compute. reflexivity.
Defined.

Lemma isNP_q_number o : isNP_q o = true -> is_nan (number_q o) = false.
Proof.
  destruct o as [v|]; simpl; [|discriminate].
  unfold isNumberProvided. destruct (is_nan (js_number (to_str v))); [|reflexivity].
  rewrite andb_false_r. discriminate.
Qed.

Lemma validMinMax_clamped_witness :
  In (mm_next_with (jfin 1) (jfin 5)) (validMinMax isNP_q (Some (qstr "0")) (Some (qstr "9"))) /\
  exists a b, jfin 1 = jfin a /\ jfin 5 = jfin b /\ (1 <= a)%Q /\ (a <= b)%Q /\ (b <= 5)%Q.
Proof.
  split; [vm_compute; left; reflexivity|].
  apply (validMinMax_clamped isNP_q isNP_q_number (Some (qstr "0")) (Some (qstr "9"))).
  vm_compute. left. reflexivity.
Defined.



End UpdateFacts.

Module CatalogFacts.
Import Js Catalog.
Local Open Scope string_scope.

Lemma filter_all {A} (f : A -> bool) l : (forall x, In x l -> f x = true) -> filter f l = l.
Proof.
  induction l as [|x l IH]; simpl; intros H; [reflexivity|].
  rewrite (H x (or_introl eq_refl)), IH; auto.
Qed.

Lemma filter_filter_same {A} (f : A -> bool) l : filter f (filter f l) = filter f l.
Proof. apply filter_all. intros x Hx. apply filter_In in Hx. apply Hx. Qed.

Lemma mem_nil x : mem x [] = false.
Proof. reflexivity. Qed.

Lemma mem_in x l : mem x l = true <-> In x l.
Proof.
  unfold mem. rewrite existsb_exists. split.
  - intros [y [Hy E]]. apply Z.eqb_eq in E. subst. exact Hy.
  - intros H. exists x. split; [exact H | apply Z.eqb_refl].
Qed.

Lemma ids_where_links p c : ids_where p (delete_links_in p c) = ids_where p c.
Proof. reflexivity. Qed.

Lemma ids_where_effect p c : ids_where p (delete_effect p c) = [].
Proof.
  unfold ids_where, delete_effect. simpl.
  induction (books c) as [|r l IH]; simpl; [reflexivity|].
  destruct (p r) eqn:E; simpl; [exact IH | rewrite E; exact IH].
Qed.

Lemma delete_links_twice p c : delete_links_in p (delete_links_in p c) = delete_links_in p c.
Proof.
  unfold delete_links_in at 1. rewrite ids_where_links. simpl.
  rewrite filter_filter_same. reflexivity.
Qed.

Lemma delete_books_after_links p c :
  delete_books p (delete_links_in p c) = Some (delete_effect p c).
Proof.
  unfold delete_books. rewrite ids_where_links.
  replace (existsb _ _) with false; [reflexivity|].
  symmetry. apply not_true_iff_false. intros H.
  apply existsb_exists in H. destruct H as [l [Hl H]].
  simpl in Hl. apply filter_In in Hl. destruct Hl as [_ Hl].
  apply andb_true_iff in H. destruct H as [H _].
  rewrite H in Hl. discriminate.
Qed.

Lemma delete_links_effect p c : delete_links_in p (delete_effect p c) = delete_effect p c.
Proof.
  unfold delete_links_in. rewrite ids_where_effect.
  destruct (delete_effect p c) as [bs ls] eqn:E. simpl.
  rewrite filter_all; [reflexivity|]. intros x _. reflexivity.
Qed.

Lemma delete_books_effect p c : delete_books p (delete_effect p c) = Some (delete_effect p c).
Proof.
  unfold delete_books. rewrite ids_where_effect.
  replace (existsb _ _) with false.
  - unfold delete_effect at 1 2. simpl. rewrite filter_filter_same. reflexivity.
  - symmetry. apply not_true_iff_false. intros H.
    apply existsb_exists in H. destruct H as [l [_ H]]. discriminate.
Qed.

Lemma delete_effect_twice p c : delete_effect p (delete_effect p c) = delete_effect p c.
Proof.
  unfold delete_effect at 1. rewrite ids_where_effect.
  unfold delete_effect. simpl. rewrite filter_filter_same.
  rewrite (filter_all (fun l => negb (mem (fst l) []))) by (intros; reflexivity). reflexivity.
Qed.

(** Both statements of a chain, in order, remove the rows; a statement run
    on the result changes nothing. *)
Lemma run_chain p c :
  run_stmts [s_delete_links p; s_delete_books p] c = Some (delete_effect p c).
Proof. simpl. rewrite delete_books_after_links. reflexivity. Qed.

Lemma delete_isbn_schedules_run isbn c sched :
  In sched (delete_isbn_schedules isbn) ->
  run_stmts sched c = Some (delete_effect (isbn_is isbn) c).
Proof.
  set (p := isbn_is isbn).
  unfold delete_isbn_schedules, delete_isbn_chain. fold p. simpl.
  intros H. repeat destruct H as [<-|H]; try destruct H;
    repeat (cbn [run_stmts run_stmt];
            rewrite ?delete_links_effect, ?delete_books_effect, ?delete_links_twice,
              ?delete_books_after_links, ?delete_effect_twice);
    reflexivity.
Qed.

Lemma delete_effect_none c : delete_effect (isbn_is None) c = c.
Proof.
  destruct c as [bs ls]. unfold delete_effect, ids_where. simpl.
  rewrite filter_all by (intros; reflexivity).
  replace (filter (isbn_is None) bs) with (@nil (Z * string)).
  - rewrite filter_all by (intros; reflexivity). reflexivity.
  - induction bs; simpl; auto.
Qed.

Lemma links_ok_effect p c : links_ok c -> links_ok (delete_effect p c).
Proof.
  unfold links_ok, delete_effect. simpl. intros H l Hl.
  apply filter_In in Hl. destruct Hl as [Hl Hm].
  apply H in Hl. apply in_map_iff in Hl. destruct Hl as [r [Er Hr]].
  apply in_map_iff. exists r. split; [exact Er|].
  apply filter_In. split; [exact Hr|].
  destruct (p r) eqn:Pr; [|reflexivity].
  exfalso. apply negb_true_iff in Hm. apply not_true_iff_false in Hm. apply Hm.
  apply mem_in. unfold ids_where. apply in_map_iff. exists r. split; [exact Er|].
  apply filter_In. auto.
Qed.

(** [DELETE /deleteBook/:isbn]: with no book of that ISBN it answers 200 and changes nothing; with one it removes the book and its links and answers 200.  With several, the scalar subquery fails, and the route answers 500 with nothing changed, whenever it is run: always under a plan that runs it up front, and under a lazy plan whenever [book_author] has a row; under a lazy plan with an empty [book_author] it is never run, and the route removes all the books of that ISBN and answers 200. *)
Lemma deleteBook_route_cases eager isbn c :
  deleteBook_route eager isbn c =
  match ids_where (isbn_is (Some isbn)) c with
  | [] => (c, 200)
  | [_] => (delete_effect (isbn_is (Some isbn)) c, 200)
  | _ =>
      if eager then (c, 500)
      else match book_author c with
           | [] => (delete_effect (isbn_is (Some isbn)) c, 200)
           | _ :: _ => (c, 500)
           end
  end.
Proof.
  unfold deleteBook_route, delete_links_eq.
  destruct (ids_where (isbn_is (Some isbn)) c) as [|i [|j rest]] eqn:E.
  - assert (K : filter (fun r => negb (isbn_is (Some isbn) r)) (books c) = books c).
    { apply filter_all. intros r Hr. destruct (isbn_is (Some isbn) r) eqn:P; [|reflexivity].
      exfalso. assert (In (fst r) (ids_where (isbn_is (Some isbn)) c)).
      { unfold ids_where. apply in_map, filter_In. auto. }
      rewrite E in H. destruct H. }
    unfold delete_books. rewrite E, K.
    replace (existsb _ (book_author c)) with false
      by (induction (book_author c); simpl; auto).
    destruct c. reflexivity.
  - set (c1 := mkCatalog (books c) (filter (fun l => negb (Z.eqb (fst l) i)) (book_author c))).
    assert (E1 : c1 = delete_links_in (isbn_is (Some isbn)) c).
    { unfold c1, delete_links_in. rewrite E. f_equal. apply filter_ext. intros l.
      unfold mem. simpl. rewrite orb_false_r. reflexivity. }
    rewrite E1, delete_books_after_links. reflexivity.
  - destruct eager; [reflexivity|].
    destruct c as [bs ls]. simpl in *. destruct ls as [|l ls]; [|reflexivity].
    unfold delete_books, delete_effect. reflexivity.
Qed.

(** [DELETE /books/deleteIsbn] sends its two statements twice, as two
    promise chains; whatever the interleaving, the store ends with the books
    of the ISBN and their links removed, and every link still points to a book. *)
Lemma deleteIsbn_interleavings isbn c sched :
  In sched (delete_isbn_schedules isbn) ->
  run_stmts sched c = Some (delete_effect (isbn_is isbn) c) /\
  (links_ok c -> links_ok (delete_effect (isbn_is isbn) c)).
Proof. intros H. split; [apply delete_isbn_schedules_run, H | apply links_ok_effect]. Qed.

(** [DELETE /books/deleteIsbn] without an [isbn] passes [validISBN] and, in
    every interleaving, leaves the store unchanged. *)
Lemma deleteIsbn_absent_isbn c sched :
  In sched (delete_isbn_schedules None) ->
  Middleware.validISBN None = None /\ run_stmts sched c = Some c.
Proof.
  intros H. split; [reflexivity|].
  rewrite (delete_isbn_schedules_run None c sched H). f_equal. apply delete_effect_none.
Qed.

(** [DELETE /books/deleteRangeBooks]: a bound that [Number] reads but [parseInt] does not (such as [.5]) passes the checks; the store rejects the [NaN] bound and the request gets no response, nothing deleted. *)
Lemma parse_nan_no_response smin smax x y c :
  smin <> "" -> smax <> "" -> js_number smin = x -> js_number smax = y ->
  is_nan x = false -> is_nan y = false ->
  parse_int smin = None \/ parse_int smax = None ->
  deleteRangeBooks_route (Some smin) (Some smax) c = range_no_response.
Proof.
  intros Hmin Hmax Hx Hy Nx Ny Hp. unfold deleteRangeBooks_route. simpl.
  apply String.eqb_neq in Hmin, Hmax. rewrite Hmin, Hmax, Hx, Hy, Nx, Ny. simpl.
  destruct Hp as [Hp|Hp]; rewrite Hp.
  - destruct (parse_int smax); reflexivity.
  - destruct (parse_int smin); reflexivity.
Qed.

(** [DELETE /books/deleteRangeBooks] answers 200 only for two bounds [parseInt] reads with [min <= max]; it then removes exactly the books in the range and their links, and keeps every link pointing to a book. *)
Lemma deleteRangeBooks_200 min_id max_id c c' :
  deleteRangeBooks_route min_id max_id c = range_200 c' ->
  exists smin smax lo hi,
    min_id = Some smin /\ max_id = Some smax /\
    parse_int smin = Some lo /\ parse_int smax = Some hi /\ lo <= hi /\
    c' = delete_effect (in_range lo hi) c /\ (links_ok c -> links_ok c').
Proof.
  unfold deleteRangeBooks_route.
  destruct (_ || _ || _ || _) eqn:Chk; [discriminate|].
  destruct min_id as [smin|]; [|discriminate].
  destruct max_id as [smax|]; [|simpl in Chk; rewrite orb_true_r in Chk; discriminate].
  destruct (parse_int smin) as [lo|] eqn:Plo;
    destruct (parse_int smax) as [hi|] eqn:Phi; cbn -[run_stmts];
    try (match goal with |- context [if ?b then _ else _] => destruct b eqn:G end);
    try discriminate.
  destruct (negb (int4_ok lo && int4_ok hi)); [discriminate|].
  rewrite run_chain. intros H. injection H as <-.
  exists smin, smax, lo, hi. repeat split; auto.
  - apply JsFacts.qlt_false in G. rewrite <- Zle_Qle in G. exact G.
  - apply links_ok_effect.
Qed.

Lemma deleteIsbn_interleavings_witness :
  run_stmts (delete_isbn_chain (Some "9780439023480") ++ delete_isbn_chain (Some "9780439023480"))
    ex_catalog = Some (mkCatalog [(2, "9780316015844"); (3, "9780061120084")] [(2, 12); (3, 13)]) /\
  run_stmts (delete_isbn_chain (Some "9780439023480") ++ delete_isbn_chain (Some "9780439023480"))
    ex_catalog = Some (delete_effect (isbn_is (Some "9780439023480")) ex_catalog) /\
  (links_ok ex_catalog -> links_ok (delete_effect (isbn_is (Some "9780439023480")) ex_catalog)).
Proof.
  split; [vm_compute; reflexivity|].
  apply deleteIsbn_interleavings. left. reflexivity.
Defined.

Lemma deleteIsbn_absent_isbn_witness :
  Middleware.validISBN None = None /\
  run_stmts (delete_isbn_chain None ++ delete_isbn_chain None) ex_catalog = Some ex_catalog.
Proof. apply deleteIsbn_absent_isbn. left. reflexivity. Defined.

Lemma parse_nan_no_response_witness :
  deleteRangeBooks_route (Some ".5") (Some "3") ex_catalog = range_no_response.
Proof.
  eapply (parse_nan_no_response ".5" "3" _ _ ex_catalog);
    [discriminate | discriminate | reflexivity | reflexivity |
     vm_compute; reflexivity | vm_compute; reflexivity | left; vm_compute; reflexivity].
Defined.

Lemma deleteRangeBooks_200_witness :
  deleteRangeBooks_route (Some "2") (Some "3.9") ex_catalog =
    range_200 (mkCatalog [(1, "9780439023480")] [(1, 10); (1, 11)]) /\
  exists smin smax lo hi,
    Some "2" = Some smin /\ Some "3.9" = Some smax /\
    parse_int smin = Some lo /\ parse_int smax = Some hi /\ lo <= hi /\
    mkCatalog [(1, "9780439023480")] [(1, 10); (1, 11)] = delete_effect (in_range lo hi) ex_catalog /\
    (links_ok ex_catalog -> links_ok (mkCatalog [(1, "9780439023480")] [(1, 10); (1, 11)])).
Proof.
  split; [vm_compute; reflexivity|].
  apply deleteRangeBooks_200. vm_compute. reflexivity.
Defined.

End CatalogFacts.

Module KeywordFacts.
Import Js KeywordCheck.

Lemma scan_run_all l j best :
  no_lt l = true -> forallb in_class l = true ->
  scan_run l j best = match l with [] => best | _ => Some (j + length l)%nat end.
Proof.
  revert j best. induction l as [|c r IH]; intros j best Hn Hc; [reflexivity|].
  cbn [no_lt forallb] in Hn, Hc. apply andb_true_iff in Hn, Hc. destruct Hn as [Hn1 Hn2], Hc as [Hc1 Hc2].
  cbn [scan_run]. rewrite Hc1. rewrite IH by assumption.
  destruct r as [|d r']; cbn [at_line_end length].
  - f_equal. lia.
  - f_equal. lia.
Qed.

Lemma scan_run_bad l j best :
  no_lt l = true -> forallb in_class l = false -> scan_run l j best = best.
Proof.
  revert j best. induction l as [|c r IH]; intros j best Hn Hc; [reflexivity|].
  cbn [no_lt forallb] in Hn, Hc. apply andb_true_iff in Hn. destruct Hn as [_ Hr].
  cbn [scan_run]. destruct (in_class c) eqn:Ec; [|reflexivity].
  try (rewrite Ec in Hc; cbn [andb] in Hc).
  destruct r as [|d r']; [discriminate|].
  pose proof Hr as Hr'. cbn [no_lt forallb] in Hr'. apply andb_true_iff in Hr'.
  destruct Hr' as [Hd _]. apply negb_true_iff in Hd.
  cbn [at_line_end]. rewrite Hd. apply IH; assumption.
Qed.

Lemma global_matches_off f l : no_lt l = true -> global_matches f false l = [].
Proof.
  revert l. induction f as [|f IH]; intros l Hn; [reflexivity|].
  destruct l as [|c r]; [reflexivity|].
  cbn [no_lt forallb] in Hn. apply andb_true_iff in Hn. destruct Hn as [Hc Hr].
  apply negb_true_iff in Hc. cbn [global_matches]. rewrite Hc. apply IH, Hr.
Qed.

(** On a keyword without line terminators, [checkQueryFormat] accepts exactly the non-empty keywords made only of letters, digits, white space, double quotes and hyphens. *)
Lemma checkQueryFormat_single_line q :
  no_lt (list_ascii_of_string q) = true ->
  checkQueryFormat q = negb (String.eqb q EmptyString) && allowed_keyword q.
Proof.
  intros Hn. unfold checkQueryFormat, query_matches, allowed_keyword.
  destruct q as [|c s]; [reflexivity|].
  change (list_ascii_of_string (String c s)) with (c :: list_ascii_of_string s) in *.
  set (r := list_ascii_of_string s) in *.
  cbn [negb String.eqb]. simpl andb.
  destruct (forallb in_class (c :: r)) eqn:Ec.
  - cbn [global_matches]. rewrite (scan_run_all (c :: r)) by assumption.
    change (0 + length (c :: r))%nat with (S (length r)).
    change (in_class c && forallb in_class r) with (forallb in_class (c :: r)). rewrite Ec.
    cbv beta iota. rewrite firstn_all2, skipn_all2 by (simpl; lia).
    change (length (c :: r)) with (S (length r)). reflexivity.
  - cbn [global_matches]. rewrite (scan_run_bad (c :: r)) by assumption.
    cbn [no_lt forallb] in Hn. apply andb_true_iff in Hn. destruct Hn as [Hc Hr].
    apply negb_true_iff in Hc. rewrite Hc, global_matches_off by exact Hr.
    change (in_class c && forallb in_class r) with (forallb in_class (c :: r)).
    rewrite Ec. reflexivity.
Qed.

Lemma checkQueryFormat_single_line_witness :
  no_lt (list_ascii_of_string "hunger games") = true /\
  checkQueryFormat "hunger games" =
    negb (String.eqb "hunger games" EmptyString) && allowed_keyword "hunger games".
Proof.
  split; [vm_compute; reflexivity|].
  apply checkQueryFormat_single_line. vm_compute. reflexivity.
Defined.

End KeywordFacts.

Module AddBookFacts.
Import Js AddBook.
Local Open Scope string_scope.

(** [POST /books/addBook]: a required field that is falsy (absent, [null], [false], [0] or empty) makes a body with a valid [isbn13] be rejected as missing information; in particular a body whose rating count is the number 0 is rejected (a rating count sent as the JSON string 0 is truthy and passes this check). *)
Lemma addBook_falsy_field b f :
  In f requiredFields -> truthy_j (b f) = false ->
  addBook_checks b = if isbn_ok (b "isbn13") then missing_rejected else isbn_rejected.
Proof.
  intros Hf Hb. unfold addBook_checks.
  destruct (isbn_ok (b "isbn13")); [cbn [negb]|reflexivity].
  assert (Hin : In f (filter (fun f => negb (truthy_j (b f))) requiredFields)).
  { apply filter_In. rewrite Hb. auto. }
  destruct (filter _ requiredFields); [destruct Hin | reflexivity].
Qed.

Lemma addBook_falsy_field_witness :
  In "rating_1_star" requiredFields /\ truthy_j (ex_body "rating_1_star") = false /\
  addBook_checks ex_body = missing_rejected.
Proof.
  split; [vm_compute; tauto|]. split; [vm_compute; reflexivity|].
  apply (addBook_falsy_field ex_body "rating_1_star"); vm_compute; [tauto | reflexivity].
Defined.

End AddBookFacts.

Module MigrationExtraFacts.
Import Migration.

(** The cases of a version in [0 .. Latest] and of a script in [1 .. Latest]. *)
Ltac version_cases v :=
  let H := fresh in
  assert (H : v = 0 \/ v = 1 \/ v = 2 \/ v = 3 \/ v = 4) by (unfold Latest in *; lia);
  destruct H as [-> | [-> | [-> | [-> | ->]]]].

Ltac compute_scripts :=
  unfold migrate, migrate_catch, migrateFromVersion; cbn [read_version];
  repeat match goal with
         | |- context [scripts_from ?n] =>
             let l := eval vm_compute in (scripts_from n) in change (scripts_from n) with l
         end.

Ltac run_env env Hok Hk :=
  repeat (cbn -[script_effect];
          match goal with
          | |- context [env ?n] => first [rewrite Hk | rewrite (Hok n) by lia]
          end).

(** When every script from [version + 1] to 4 succeeds, [migrate] runs exactly those scripts, in order, and resolves. *)
Lemma migrate_all_scripts_ok env env_catch v rest :
  0 <= v <= Latest -> (forall n, v < n <= Latest -> env n = None) ->
  fst (fst (migrate env env_catch (Some (v :: rest)))) = scripts_from v /\
  snd (migrate env env_catch (Some (v :: rest))) = resolved.
Proof.
  intros Hv Hok. unfold Latest in *.
  version_cases v; compute_scripts; cbn -[script_effect];
    repeat (match goal with
            | |- context [env ?n] => rewrite (Hok n) by lia
            end; cbn -[script_effect]); auto.
Qed.

(** When script [k] fails with an error other than [42P01], [migrate] has run scripts [version + 1 .. k], runs none after it, and only logs the error. *)
Lemma migrate_script_error_logged env env_catch v rest k e :
  0 <= v -> v < k <= Latest ->
  (forall n, v < n < k -> env n = None) -> env k = Some e -> is_undefined_table e = false ->
  fst (fst (migrate env env_catch (Some (v :: rest)))) = firstn (Z.to_nat (k - v)) (scripts_from v) /\
  snd (migrate env env_catch (Some (v :: rest))) = logged e.
Proof.
  intros Hv Hk Hok Hke He. unfold Latest in *.
  version_cases v; try lia; version_cases k; try lia; compute_scripts;
    run_env env Hok Hke; rewrite ?He; auto.
Qed.

(** When script [k] fails with [42P01] in the [try] block, [migrate] restarts from version 0, and settles as that second run does: if in it scripts [1 .. k-1] succeed and script [k] fails with some error, it runs scripts [1 .. k] again and rejects with that error; if in it every script succeeds, it runs scripts [1 .. 4], leaves version 4 and resolves. *)
Lemma migrate_script_undefined_table_restarts env env_catch v rest k e :
  0 <= v -> v < k <= Latest ->
  (forall n, v < n < k -> env n = None) -> env k = Some e -> is_undefined_table e = true ->
  ((forall n, 0 < n < k -> env_catch n = None) -> forall e2, env_catch k = Some e2 ->
     fst (fst (migrate env env_catch (Some (v :: rest)))) =
       firstn (Z.to_nat (k - v)) (scripts_from v) ++ firstn (Z.to_nat k) (scripts_from 0) /\
     snd (migrate env env_catch (Some (v :: rest))) = rejected e2) /\
  ((forall n, 0 < n <= Latest -> env_catch n = None) ->
     migrate env env_catch (Some (v :: rest)) =
       (firstn (Z.to_nat (k - v)) (scripts_from v) ++ scripts_from 0, Some [Latest], resolved)).
Proof.
  intros Hv Hk Hok Hke He. unfold Latest in *.
  version_cases v; try lia; version_cases k; try lia; compute_scripts;
    run_env env Hok Hke; rewrite ?He; cbn -[script_effect];
    (split; [intros Hok2 e2 Hke2; run_env env_catch Hok2 Hke2; auto
            | intros Hall;
              repeat (cbn -[script_effect];
                      match goal with
                      | |- context [env_catch ?n] => rewrite (Hall n) by lia
                      end);
              reflexivity]).
Qed.

(** A [schema_version] table with no row, or with a version outside [0 .. 4], makes [migrate] run no script, leave the table as it is, and only log an error. *)
Lemma migrate_bad_table env env_catch d :
  (d = Some [] \/ exists v rest, d = Some (v :: rest) /\ (v < 0 \/ Latest < v)) ->
  exists e, migrate env env_catch d = ([], d, logged e).
Proof.
  intros [->|[v [rest [-> Hv]]]].
  - eexists. reflexivity.
  - exists (unrecognized v). unfold migrate, migrateFromVersion. simpl.
    replace ((0 <=? v) && (v <=? Latest)) with false; [reflexivity|].
    symmetry. apply andb_false_iff. destruct Hv; [left | right]; apply Z.leb_gt; lia.
Qed.

Lemma migrate_all_scripts_ok_witness :
  fst (fst (migrate all_ok all_ok (Some [1]))) = [2; 3; 4] /\
  snd (migrate all_ok all_ok (Some [1])) = resolved.
Proof.
  apply (migrate_all_scripts_ok all_ok all_ok 1 []); [unfold Latest; lia | intros; reflexivity].
Defined.

Lemma migrate_script_error_logged_witness :
  fst (fst (migrate (fail_at 3 ex_error) all_ok (Some [1]))) = [2; 3] /\
  snd (migrate (fail_at 3 ex_error) all_ok (Some [1])) = logged ex_error.
Proof.
  apply (migrate_script_error_logged (fail_at 3 ex_error) all_ok 1 [] 3 ex_error);
    [lia | unfold Latest; lia | intros n Hn; unfold fail_at; rewrite (proj2 (Z.eqb_neq n 3)) by lia;
     reflexivity | reflexivity | reflexivity].
Defined.

Lemma migrate_script_undefined_table_restarts_witness :
  (fst (fst (migrate (fail_at 3 ex_missing) (fail_at 3 ex_error) (Some [1]))) = [2; 3; 1; 2; 3] /\
   snd (migrate (fail_at 3 ex_missing) (fail_at 3 ex_error) (Some [1])) = rejected ex_error) /\
  migrate (fail_at 3 ex_missing) all_ok (Some [1]) = ([2; 3; 1; 2; 3; 4], Some [4], resolved).
Proof.
  assert (Hf : forall e n, n < 3 -> fail_at 3 e n = None).
  { intros e0 n Hn. unfold fail_at. rewrite (proj2 (Z.eqb_neq n 3)) by lia. reflexivity. }
  split.
  - apply (proj1 (migrate_script_undefined_table_restarts (fail_at 3 ex_missing) (fail_at 3 ex_error)
      1 [] 3 ex_missing ltac:(lia) ltac:(unfold Latest; lia)
      (fun n Hn => Hf ex_missing n (proj2 Hn)) eq_refl eq_refl)).
    + intros n Hn. apply Hf. lia.
    + reflexivity.
  - apply (proj2 (migrate_script_undefined_table_restarts (fail_at 3 ex_missing) all_ok
      1 [] 3 ex_missing ltac:(lia) ltac:(unfold Latest; lia)
      (fun n Hn => Hf ex_missing n (proj2 Hn)) eq_refl eq_refl)).
    intros n Hn. reflexivity.
Defined.

Lemma migrate_bad_table_witness :
  exists e, migrate all_ok all_ok (Some [7; 3]) = ([], Some [7; 3], logged e).
Proof.
  apply migrate_bad_table. right. exists 7, [3]. split; [reflexivity | unfold Latest; lia].
Defined.

End MigrationExtraFacts.
